(** * migrate_titles.py: a shallow embedding and its verified properties

    The script rewrites note files (a metadata header between two [---]
    delimiters, then a body) so that the body starts with a heading equal
    to the title stored in the header.

    Text is modelled as [string]: a Python [str] whose characters are code
    points below 256.  The functions below follow the script function by
    function and keep its names. *)

From Stdlib Require Import Ascii String List NArith Lia.
From stdpp Require Import base option list strings gmap pretty.

Local Open Scope N_scope.
Local Open Scope list_scope.
Local Open Scope stdpp_scope.

(** Let [simpl] compute the concatenation of texts. *)
#[local] Arguments String.append !_ _ : simpl nomatch.

(** ** Python [str] primitives used by the script *)

Module Py.

Definition LF : ascii := "010"%char.
Definition CR : ascii := "013"%char.
Definition DQUOTE : ascii := "034"%char.
Definition SQUOTE : ascii := "039"%char.
Definition HASH : ascii := "035"%char.

(** The one-character string [chr(10)]. *)
Definition nl : string := String LF "".

(** [str.isspace] on one character (also the class [\s] of [re] on
    [str] patterns), for code points below 256. *)
Definition isspace (c : ascii) : bool :=
  let n := N_of_ascii c in
  ((9 <=? n) && (n <=? 13)) || ((28 <=? n) && (n <=? 32))
  || (n =? 133) || (n =? 160).

(** [s.startswith(pre)] *)
Fixpoint startswith (s pre : string) {struct pre} : bool :=
  match pre with
  | "" => true
  | String p pre' =>
      match s with
      | "" => false
      | String c s' => if Ascii.eqb c p then startswith s' pre' else false
      end
  end.

(** [sub in s] *)
Fixpoint contains (s sub : string) : bool :=
  startswith s sub
  || match s with
     | "" => false
     | String _ r => contains r sub
     end.

(** [s[n:]] *)
Fixpoint drop (n : nat) (s : string) : string :=
  match n, s with
  | O, _ => s
  | S _, "" => ""
  | S k, String _ r => drop k r
  end.

Fixpoint drop_while (p : ascii -> bool) (s : string) : string :=
  match s with
  | "" => ""
  | String c r => if p c then drop_while p r else s
  end.

(** [s.lstrip()], [s.rstrip()], [s.strip()] *)
Definition lstrip (s : string) : string := drop_while isspace s.

Fixpoint rstrip (s : string) : string :=
  match s with
  | "" => ""
  | String c r =>
      match rstrip r with
      | "" => if isspace c then "" else String c ""
      | r' => String c r'
      end
  end.

Definition strip (s : string) : string := rstrip (lstrip s).

(** [s.split(c)] for a one-character separator: never the empty list. *)
Fixpoint split_on (c : ascii) (s : string) : list string :=
  match s with
  | "" => [""]
  | String a r =>
      if Ascii.eqb a c then "" :: split_on c r
      else match split_on c r with
           | [] => [String a ""]
           | h :: t => String a h :: t
           end
  end.

(** [s.partition(sep)] when [sep] occurs: the text before the leftmost
    occurrence and the text after it. *)
Fixpoint cut (sep s : string) : option (string * string) :=
  if startswith s sep then Some ("", drop (String.length sep) s)
  else match s with
       | "" => None
       | String c r =>
           match cut sep r with
           | Some (a, b) => Some (String c a, b)
           | None => None
           end
       end.

(** [s.split(sep, maxsplit)] for a non-empty [sep]. *)
Fixpoint split_max (sep s : string) (maxsplit : nat) : list string :=
  match maxsplit with
  | O => [s]
  | S k =>
      match cut sep s with
      | None => [s]
      | Some (a, b) => a :: split_max sep b k
      end
  end.

(** [s.lower()] on one character and on a string. *)
Definition lower_char (c : ascii) : ascii :=
  let n := N_of_ascii c in
  if ((65 <=? n) && (n <=? 90))
     || ((192 <=? n) && (n <=? 222) && negb (n =? 215))
  then ascii_of_N (n + 32) else c.

Fixpoint lower (s : string) : string :=
  match s with
  | "" => ""
  | String c r => String (lower_char c) (lower r)
  end.

(** [repr(s)], as it stands in the text of an [OSError] after the file
    name: between single quotes, or between double quotes when [s] holds a
    single quote and no double quote; the quote used and the backslash are
    escaped, and so are the characters that are not printable. *)
Definition hex_digit (n : N) : ascii :=
  if n <? 10 then ascii_of_N (48 + n) else ascii_of_N (87 + n).

Definition repr_char (quote c : ascii) : string :=
  let n := N_of_ascii c in
  if Ascii.eqb c quote || Ascii.eqb c "\" then String "\" (String c "")
  else if n =? 9 then "\t"
  else if n =? 10 then "\n"
  else if n =? 13 then "\r"
  else if (n <? 32) || (n =? 127) || ((128 <=? n) && (n <=? 160)) || (n =? 173)
       then String "\" (String "x" (String (hex_digit (n / 16))
                                          (String (hex_digit (n mod 16)) "")))
  else String c "".

Fixpoint repr_chars (quote : ascii) (s : string) : string :=
  match s with
  | "" => ""
  | String c r => repr_char quote c +:+ repr_chars quote r
  end.

Definition repr (s : string) : string :=
  let quote :=
    if contains s (String SQUOTE "") && negb (contains s (String DQUOTE ""))
    then DQUOTE else SQUOTE in
  String quote (repr_chars quote s +:+ String quote "").

(** [s.endswith(suf)]: some tail of [s] is [suf]. *)
Fixpoint endswith (s suf : string) : bool :=
  String.eqb s suf
  || match s with
     | "" => false
     | String _ r => endswith r suf
     end.

End Py.

Import Py.

(** ** The two regular-expression substitutions *)

Definition is_quote (c : ascii) : bool := Ascii.eqb c DQUOTE || Ascii.eqb c SQUOTE.

(** Where [$] matches (no MULTILINE flag): at the end of the text, or just
    before a line feed that ends the text. *)
Definition at_dollar (rest : string) : bool :=
  match rest with
  | "" => true
  | String c "" => Ascii.eqb c LF
  | _ => false
  end.

(** The scan of [re.sub] for the second alternative (a quote followed by
    [$]), at positions after the first. *)
Fixpoint sub_quote_tail (s : string) : string :=
  match s with
  | "" => ""
  | String c r =>
      if is_quote c && at_dollar r then sub_quote_tail r
      else String c (sub_quote_tail r)
  end.

(** [re.sub(r'^["\']|["\']$', '', title)]: at position 0 the first
    alternative matches any quote; later positions can only match the
    second one. *)
Definition sub_quotes (title : string) : string :=
  match title with
  | "" => ""
  | String c r =>
      if is_quote c then sub_quote_tail r else String c (sub_quote_tail r)
  end.

(** [re.sub(r'^#+\s*', '', first_line)]: one match at most, at position 0,
    both repetitions greedy. *)
Definition sub_heading (first_line : string) : string :=
  match first_line with
  | String c r =>
      if Ascii.eqb c HASH
      then drop_while isspace (drop_while (fun a => Ascii.eqb a HASH) r)
      else first_line
  | "" => ""
  end.

(** ** The functions of the script *)

Definition marker : string := "---" +:+ nl.

(** [parse_note_file], after the file has been read: [None] stands for the
    triple [(None, None, None)]. *)
Definition parse_note_text (content : string) : option (string * string * string) :=
  match split_max marker content 2 with
  | [_; yaml; body] => Some (strip yaml, strip body, content)
  | _ => None
  end.

(** The [for] loop of [extract_title_from_yaml]. *)
Fixpoint extract_title_loop (lines : list string) : string :=
  match lines with
  | [] => ""
  | line :: rest =>
      if startswith line "title:" then sub_quotes (strip (drop 6 line))
      else extract_title_loop rest
  end.

Definition extract_title_from_yaml (yaml_content : string) : string :=
  extract_title_loop (split_on LF yaml_content).

Definition get_first_line_title (content : string) : string :=
  match content with
  | "" => ""
  | _ => sub_heading (strip (hd "" (split_on LF content)))
  end.

Definition needs_migration (stored_title first_line : string) : bool :=
  match stored_title with
  | "" => false
  | _ =>
      if contains stored_title "{{" then true
      else negb (String.eqb first_line stored_title)
  end.

(** The two strings [migrate_note] builds. *)
Definition new_content (stored_title note_content : string) : string :=
  "# " +:+ stored_title +:+ nl +:+ nl +:+ note_content.

Definition full_content (stored_title yaml_content note_content : string) : string :=
  "---" +:+ nl +:+ yaml_content +:+ nl +:+ "---" +:+ nl +:+ nl
  +:+ new_content stored_title note_content +:+ nl.

(** ** Files, directories and the outside world *)

(** What [open(path, 'w')] followed by [f.write(text)] does on a file: it
    succeeds, or it raises an exception with some text ([str(e)]) and
    leaves the file as it was ([None], as when the file may not be opened)
    or holding some other text (as when the file was opened, hence
    emptied, and the write then failed). *)
Inductive on_write :=
| Succeeds
| Fails (exception : string) (remains : option string).

(** A regular text file: its stored text and what writing to it does.
    Every file is taken to be readable UTF-8. *)
Record file := File { f_text : string; f_write : on_write }.

(** Whether a write to the file succeeds. *)
Definition f_writable (f : file) : bool :=
  match f_write f with
  | Succeeds => true
  | Fails _ _ => false
  end.

(** The file a failed write leaves. *)
Definition after_failure (f : file) (remains : option string) : file :=
  match remains with
  | None => f
  | Some text => File text (f_write f)
  end.

(** The notes directory (absent when [None]) and the directories next to
    it, by name.  A directory holds regular files only, one per name. *)
Record world := World {
  w_notes : option (gmap string file);
  w_siblings : gmap string (gmap string file)
}.

(** How [main] ends: by [return code], or by an exception nothing catches. *)
Inductive outcome :=
| Returned (code : nat)
| Raised (exception : string).

(** Text mode with [newline=None]: on reading, [CR LF] and a lone [CR]
    become [LF]. *)
Fixpoint universal_newlines (s : string) : string :=
  match s with
  | "" => ""
  | String c r =>
      if Ascii.eqb c CR then
        match r with
        | String c' r' =>
            if Ascii.eqb c' LF then String LF (universal_newlines r')
            else String LF (universal_newlines r)
        | "" => String LF ""
        end
      else String c (universal_newlines r)
  end.

Definition read_text (f : file) : string := universal_newlines (f_text f).

(** [open(path, 'w')] then [f.write(text)] on the file [name] of the
    directory: on success the directory with the file replaced (or
    created); on failure the text of the exception and the directory as
    the failed write leaves it. *)
Definition write_text (name text : string) (d : gmap string file)
  : string * gmap string file + gmap string file :=
  match d !! name with
  | Some f =>
      match f_write f with
      | Succeeds => inr (<[name := File text Succeeds]> d)
      | Fails e remains => inl (e, <[name := after_failure f remains]> d)
      end
  | None => inr (<[name := File text Succeeds]> d)
  end.

(** [parse_note_file(filepath)] *)
Definition parse_note_file (f : file) : option (string * string * string) :=
  parse_note_text (read_text f).

(** [migrate_note(filepath, stored_title, yaml_content, note_content)],
    the file being named by its name in the notes directory. *)
Definition migrate_note (name stored_title yaml_content note_content : string)
    (d : gmap string file) : string * gmap string file + gmap string file :=
  write_text name (full_content stored_title yaml_content note_content) d.

(** ** The driver *)

(** An element of [notes_to_migrate]. *)
Record pending := Pending {
  p_file : string;
  p_title : string;
  p_yaml : string;
  p_body : string
}.

(** The branch one pass of the analysis loop takes, under the names the
    specification gives them. *)
Inductive classification :=
| OK
| SKIP_MARKER
| SKIP_TEMPLATE
| NEEDS_MIGRATION
| SKIP_UNPARSEABLE.

(** The body of the analysis loop: the lines printed, the branch taken, and
    the record appended to [notes_to_migrate], if any. *)
Definition analyze_note (name : string) (f : file)
  : list string * classification * option pending :=
  let head := [nl +:+ "Analyzing: " +:+ name] in
  match parse_note_file f with
  | None => (head ++ ["  SKIP: Invalid format"], SKIP_UNPARSEABLE, None)
  | Some (yaml_content, note_content, _) =>
      let stored_title := extract_title_from_yaml yaml_content in
      let first_line := get_first_line_title note_content in
      let out := head ++ ["  Stored title: '" +:+ stored_title +:+ "'";
                          "  First line: '" +:+ first_line +:+ "'"] in
      if startswith stored_title ".notebook" then
        (out ++ ["  SKIP: Notebook marker file"], SKIP_MARKER, None)
      else if contains stored_title "{{" then
        (out ++ ["  SKIP: Contains template variables (needs manual attention)"],
         SKIP_TEMPLATE, None)
      else if needs_migration stored_title first_line then
        (out ++ ["  NEEDS MIGRATION"], NEEDS_MIGRATION,
         Some (Pending name stored_title yaml_content note_content))
      else (out ++ ["  OK: Title already matches"], OK, None)
  end.

(** The analysis loop over [note_files]. *)
Fixpoint analyze_loop (note_files : list (string * file))
  : list string * list pending :=
  match note_files with
  | [] => ([], [])
  | (name, f) :: rest =>
      let '(out, _, rec) := analyze_note name f in
      let '(out', notes_to_migrate) := analyze_loop rest in
      (out ++ out', option_list rec ++ notes_to_migrate)
  end.

(** The migration loop: [try: migrate_note(...) except Exception as e]. *)
Fixpoint migrate_loop (notes_to_migrate : list pending)
    (d : gmap string file) : list string * nat * gmap string file :=
  match notes_to_migrate with
  | [] => ([], O, d)
  | p :: rest =>
      match migrate_note (p_file p) (p_title p) (p_yaml p) (p_body p) d with
      | inr d1 =>
          let '(out, migrated_count, d2) := migrate_loop rest d1 in
          (("  MIGRATED: " +:+ p_file p +:+ " - '" +:+ p_title p +:+ "'") :: out,
           S migrated_count, d2)
      | inl (e, d1) =>
          let '(out, migrated_count, d2) := migrate_loop rest d1 in
          (("  ERROR: Failed to migrate " +:+ p_file p +:+ ": " +:+ e) :: out,
           migrated_count, d2)
      end
  end.

(** [notes_dir.glob("*.md")]: the entries whose name ends in [.md], in the
    order the directory lists them. *)
Definition glob_md (d : gmap string file) : list (string * file) :=
  filter (fun e => Is_true (endswith e.1 ".md")) (map_to_list d).

(** [base / rel] for a relative [rel], as a text: [base] is the text of a
    [Path] (so it ends in a slash only when it is a root, and [.] is the
    empty path). *)
Definition path_join (base rel : string) : string :=
  if String.eqb base "." then rel
  else if endswith base "/" then base +:+ rel
  else base +:+ "/" +:+ rel.

(** [Path.home() / ".local/share/nx/notes"], [home] being the text of
    [Path.home()]. *)
Definition notes_path (home : string) : string :=
  path_join home ".local/share/nx/notes".

Definition backup_name (now : string) : string := "notes_backup_" +:+ now.

(** [notes_dir.parent / f"notes_backup_{...}"] *)
Definition backup_path (home now : string) : string :=
  path_join home (".local/share/nx/" +:+ backup_name now).

(** The closing report of [main]. *)
Definition report (home now : string) (migrated_count : nat) : list string :=
  [nl +:+ "Migration complete! Successfully migrated "
   +:+ pretty migrated_count +:+ " notes.";
   "Backup created at: " +:+ backup_path home now]
  ++ (if (0 <? migrated_count)%nat then
        [nl +:+ "You can now use your notes with the new title system.";
         "If something goes wrong, restore from backup: cp -r '"
         +:+ backup_path home now +:+ "'/* '" +:+ notes_path home +:+ "'/"]
      else []).

(** [main()], given the text of [Path.home()], the formatted current time
    and the line typed at the prompt: how it ends, the world it leaves, and
    what it printed.  The runs modelled are those in which the notes
    directory can be listed and copied (the copy fails only when the name
    of the backup is taken), every listed file can be read, and a line is
    typed at the prompt. *)
Definition main (home now response : string) (w : world)
  : outcome * world * list string :=
  let out0 :=
    ["=== Note Title Migration Tool ===";
     "This will update notes to ensure their title matches the first line of content."] in
  match w_notes w with
  | None =>
      (Returned 1, w,
       out0 ++ ["Error: Notes directory not found at " +:+ notes_path home])
  | Some d =>
      let out1 := out0 ++ ["Creating backup at: " +:+ backup_path home now] in
      match w_siblings w !! backup_name now with
      | Some _ =>
          (Raised ("[Errno 17] File exists: " +:+ repr (backup_path home now)),
           w, out1)
      | None =>
          let w1 := World (Some d) (<[backup_name now := d]> (w_siblings w)) in
          let note_files := glob_md d in
          let out2 :=
            out1 ++ ["Found " +:+ pretty (length note_files) +:+ " notes to analyze..."] in
          match note_files with
          | [] => (Returned 0, w1, out2 ++ ["No notes found to migrate."])
          | _ =>
              let '(outa, notes_to_migrate) := analyze_loop note_files in
              let out3 :=
                out2 ++ outa
                ++ [nl +:+ "Analysis complete. " +:+ pretty (length notes_to_migrate)
                    +:+ " notes need migration."] in
              match notes_to_migrate with
              | [] => (Returned 0, w1, out3 ++ ["No migration needed!"])
              | _ =>
                  let out4 := out3 ++ ["Proceed with migration? (y/N): "] in
                  if negb (String.eqb (lower response) "y") then
                    (Returned 0, w1, out4 ++ ["Migration cancelled."])
                  else
                    let '(outm, migrated_count, d') :=
                      migrate_loop notes_to_migrate d in
                    (Returned 0, World (Some d') (w_siblings w1),
                     out4 ++ ["Starting migration..."] ++ outm
                     ++ report home now migrated_count)
              end
          end
      end
  end.

(** ** Sample notes *)

Definition grocery_note : file :=
  File ("---" +:+ nl +:+ "title: Grocery List" +:+ nl +:+ "---" +:+ nl
        +:+ "Grocery Lists" +:+ nl +:+ "Milk" +:+ nl +:+ "Eggs" +:+ nl) Succeeds.

(** A note that may not be opened for writing. *)
Definition locked_note : file :=
  File ("---" +:+ nl +:+ "title: Plan" +:+ nl +:+ "---" +:+ nl +:+ "Draft" +:+ nl)
       (Fails "[Errno 13] Permission denied: '/home/u/.local/share/nx/notes/b.md'" None).

(** A note that is opened, hence emptied, before the write fails. *)
Definition full_disk_note : file :=
  File ("---" +:+ nl +:+ "title: Log" +:+ nl +:+ "---" +:+ nl +:+ "Entries" +:+ nl)
       (Fails "[Errno 28] No space left on device" (Some "")).

Definition untitled_note : file :=
  File ("---" +:+ nl +:+ "tags: x" +:+ nl +:+ "---" +:+ nl +:+ "Anything" +:+ nl) Succeeds.

Definition template_note : file :=
  File ("---" +:+ nl +:+ "title: {{date}} Notes" +:+ nl +:+ "---" +:+ nl
        +:+ "{{date}} Notes" +:+ nl) Succeeds.

Definition marker_template_note : file :=
  File ("---" +:+ nl +:+ "title: .notebook {{name}}" +:+ nl +:+ "---" +:+ nl
        +:+ "x" +:+ nl) Succeeds.

Definition sample_dir : gmap string file :=
  <["a.md" := grocery_note]>
    (<["b.md" := locked_note]>
       (<["c.txt" := untitled_note]> (<["d.md" := full_disk_note]> ∅))).

Definition sample_world : world := World (Some sample_dir) ∅.

(** ** Descriptions the properties are stated against *)

Fixpoint mem_char (c : ascii) (s : string) : bool :=
  match s with
  | "" => false
  | String a r => Ascii.eqb a c || mem_char c r
  end.

Definition head_line (lines : list string) : option string :=
  List.find (fun line => startswith line "title:") lines.

(** Removing one quote at each end, each on its own: the leading character
    if it is a quote, then the last character if it is a quote. *)
Fixpoint drop_last_quote (s : string) : string :=
  match s with
  | "" => ""
  | String c r =>
      match r with
      | "" => if is_quote c then "" else s
      | _ => String c (drop_last_quote r)
      end
  end.

Definition drop_first_quote (s : string) : string :=
  match s with
  | "" => ""
  | String c r => if is_quote c then r else s
  end.

Definition unquote_ends (v : string) : string := drop_last_quote (drop_first_quote v).

(** The claim's reading of the quote rule: a pair is removed only when the
    value starts and ends with the same quote character. *)
Fixpoint last_char (s : string) : option ascii :=
  match s with
  | "" => None
  | String c r => match last_char r with None => Some c | o => o end
  end.

Fixpoint drop_last (s : string) : string :=
  match s with
  | "" => ""
  | String c r => match r with "" => "" | _ => String c (drop_last r) end
  end.

Definition unquote_matching (v : string) : string :=
  match v with
  | "" => ""
  | String c r =>
      if is_quote c && match last_char r with
                       | Some c' => Ascii.eqb c c'
                       | None => false
                       end
      then drop_last r else v
  end.

Definition extract_title_claimed (yaml_content : string) : string :=
  match head_line (split_on LF yaml_content) with
  | None => ""
  | Some line => unquote_matching (strip (drop 6 line))
  end.

Definition is_hash (c : ascii) : bool := Ascii.eqb c HASH.

(** [n] heading characters in a row. *)
Fixpoint hashes (n : nat) : string :=
  match n with
  | O => ""
  | S k => String HASH (hashes k)
  end.

Fixpoint all_chars (p : ascii -> bool) (s : string) : bool :=
  match s with
  | "" => true
  | String c r => p c && all_chars p r
  end.

(** The first character of [s] does not satisfy [p] ([s] may be empty). *)
Definition head_not (p : ascii -> bool) (s : string) : bool :=
  match s with
  | "" => true
  | String c _ => negb (p c)
  end.

(** The claim's reading of the heading rule: the leading run of [#] goes
    only when whitespace follows it. *)
Definition sub_heading_claimed (first_line : string) : string :=
  match first_line with
  | "" => ""
  | String c _ =>
      let after := drop_while is_hash first_line in
      if is_hash c && negb (head_not isspace after) && negb (String.eqb after "")
      then drop_while isspace after else first_line
  end.

Definition get_first_line_title_claimed (content : string) : string :=
  match content with
  | "" => ""
  | _ => sub_heading_claimed (strip (hd "" (split_on LF content)))
  end.

(** The number of positions of [s] at which [sep] starts. *)
Fixpoint occurrences (sep s : string) : nat :=
  (if startswith s sep then 1 else 0)
  + match s with
    | "" => 0
    | String _ r => occurrences sep r
    end.

(** The claim's reading of a marker: the number of lines of the text that
    consist of [---] and nothing else. *)
Definition marker_lines (content : string) : nat :=
  length (List.filter (String.eqb "---") (split_on LF content)).

(** The file layout of [migrate_note] around a body that is left as it
    is. *)
Definition serialize (yaml_content body : string) : string :=
  "---" +:+ nl +:+ yaml_content +:+ nl +:+ "---" +:+ nl +:+ nl +:+ body +:+ nl.

Definition loose_dashes_note : string :=
  "---" +:+ nl +:+ "a--- " +:+ nl +:+ "---" +:+ nl +:+ "b".

Definition short_note : string := "---" +:+ nl +:+ "t" +:+ nl +:+ "---".

Definition inline_dashes_note : string :=
  "a---" +:+ nl +:+ "t---" +:+ nl +:+ "x".

(** The list [notes_to_migrate] that the analysis of a directory builds. *)
Definition pending_of (d : gmap string file) : list pending :=
  (analyze_loop (glob_md d)).2.

(** The two lines the migration loop prints for a record. *)
Definition migrated_line (p : pending) : string :=
  "  MIGRATED: " +:+ p_file p +:+ " - '" +:+ p_title p +:+ "'".

Definition error_line (p : pending) (exception : string) : string :=
  "  ERROR: Failed to migrate " +:+ p_file p +:+ ": " +:+ exception.

(** What the migration loop owes a record [p], given the directory [d]
    before the loop: the directory [d'] after it and the lines [out] it
    printed. *)
Definition processed (d d' : gmap string file) (out : list string)
    (p : pending) : Prop :=
  match d !! p_file p with
  | Some f =>
      match f_write f with
      | Succeeds =>
          d' !! p_file p
          = Some (File (full_content (p_title p) (p_yaml p) (p_body p)) Succeeds)
          /\ migrated_line p ∈ out
      | Fails e remains =>
          d' !! p_file p = Some (after_failure f remains) /\ error_line p e ∈ out
      end
  | None =>
      d' !! p_file p
      = Some (File (full_content (p_title p) (p_yaml p) (p_body p)) Succeeds)
      /\ migrated_line p ∈ out
  end.

(** The notes directory a run that reaches the backup leaves behind. *)
Definition final_notes (home response : string) (d : gmap string file)
  : gmap string file :=
  match pending_of d with
  | [] => d
  | _ =>
      if String.eqb (lower response) "y"
      then (migrate_loop (pending_of d) d).2
      else d
  end.

(** Whether a write succeeds for a name of the directory. *)
Definition writable_at (d : gmap string file) (name : string) : bool :=
  match d !! name with
  | Some f => f_writable f
  | None => true
  end.

(** The text that may follow a first line: nothing, or a line feed and
    more text. *)
Definition follows (tail : string) : Prop :=
  tail = "" \/ exists rest : string, tail = nl +:+ rest.

(** A note with the line ends of Windows. *)
Definition crlf_note : file :=
  File ("---" +:+ String CR nl +:+ "title: Plan" +:+ String CR nl +:+ "---" +:+ String CR nl
        +:+ "Draft" +:+ String CR nl) Succeeds.

(** The file the writer leaves for a record. *)
Definition migrated_file (p : pending) : file :=
  File (full_content (p_title p) (p_yaml p) (p_body p)) Succeeds.

Definition grocery_pending : pending :=
  Pending "a.md" "Grocery List" "title: Grocery List"
          ("Grocery Lists" +:+ nl +:+ "Milk" +:+ nl +:+ "Eggs").

Definition writable_dir : gmap string file :=
  <["a.md" := grocery_note]> (<["c.md" := untitled_note]> ∅).

(** * Properties *)

(** ** The writer *)

(** C1: for stored title [t], metadata block [m] and body [b], the writer
    builds the new body [# t], a blank line, then [b] unchanged, and writes
    the marker line, [m], the marker line, a blank line, the new body and a
    final line feed to the file; for the title "Grocery List" and the body
    "Grocery Lists / Milk / Eggs" the new body is as the scenario gives it. *)
Theorem migrate_note_writes (name t m b : string) (d : gmap string file) (f : file) :
  d !! name = Some f ->
  f_writable f = true ->
  new_content t b = "# " +:+ t +:+ nl +:+ nl +:+ b
  /\ migrate_note name t m b d
     = inr (<[name := File ("---" +:+ nl +:+ m +:+ nl +:+ "---" +:+ nl +:+ nl
                            +:+ ("# " +:+ t +:+ nl +:+ nl +:+ b) +:+ nl) Succeeds]> d)
  /\ new_content "Grocery List" ("Grocery Lists" +:+ nl +:+ "Milk" +:+ nl +:+ "Eggs")
     = "# Grocery List" +:+ nl +:+ nl +:+ "Grocery Lists" +:+ nl +:+ "Milk" +:+ nl +:+ "Eggs".
Proof.
  intros Hf Hw. split; [reflexivity|]. split; [|reflexivity].
  unfold migrate_note, write_text. rewrite Hf.
  unfold f_writable in Hw. destruct (f_write f); [reflexivity | discriminate Hw].
Qed.

Lemma migrate_note_writes_witness :
  sample_dir !! "a.md" = Some grocery_note
  /\ f_writable grocery_note = true
  /\ migrate_note "a.md" "Grocery List" "title: Grocery List"
       ("Grocery Lists" +:+ nl +:+ "Milk" +:+ nl +:+ "Eggs") sample_dir
     = inr (<["a.md" := File ("---" +:+ nl +:+ "title: Grocery List" +:+ nl +:+ "---"
                              +:+ nl +:+ nl
                              +:+ ("# Grocery List" +:+ nl +:+ nl
                                   +:+ "Grocery Lists" +:+ nl +:+ "Milk" +:+ nl +:+ "Eggs")
                              +:+ nl) Succeeds]> sample_dir).
Proof.
  assert (H1 : sample_dir !! "a.md" = Some grocery_note) by (vm_compute; reflexivity).
  assert (H2 : f_writable grocery_note = true) by reflexivity.
  split; [exact H1|]. split; [exact H2|].
  exact (proj1 (proj2 (migrate_note_writes "a.md" "Grocery List"
                         "title: Grocery List"
                         ("Grocery Lists" +:+ nl +:+ "Milk" +:+ nl +:+ "Eggs")
                         sample_dir grocery_note H1 H2))).
Defined.

(** ** The migration decision *)

Lemma contains_nonempty (s sub : string) :
  contains s sub = true -> sub <> "" -> s <> "".
Proof.
  intros Hc Hsub ->. destruct sub as [|c sub]; [congruence|]. discriminate Hc.
Qed.

Lemma needs_migration_empty (first_line : string) :
  needs_migration "" first_line = false.
Proof. reflexivity. Qed.

Lemma needs_migration_placeholder (stored_title first_line : string) :
  contains stored_title "{{" = true -> needs_migration stored_title first_line = true.
Proof.
  intros Hc. unfold needs_migration. rewrite Hc.
  destruct stored_title; [discriminate Hc | reflexivity].
Qed.

(** What the analysis does with a note that parses, by the stored title. *)
Lemma analyze_note_parsed (name : string) (f : file) (yaml body full : string) :
  parse_note_file f = Some (yaml, body, full) ->
  let t := extract_title_from_yaml yaml in
  let l := get_first_line_title body in
  (analyze_note name f).1.2
  = (if startswith t ".notebook" then SKIP_MARKER
     else if contains t "{{" then SKIP_TEMPLATE
     else if needs_migration t l then NEEDS_MIGRATION else OK)
  /\ (analyze_note name f).2
     = (if startswith t ".notebook" then None
        else if contains t "{{" then None
        else if needs_migration t l then Some (Pending name t yaml body) else None).
Proof.
  intros Hp t l. unfold analyze_note. rewrite Hp. fold t l.
  destruct (startswith t ".notebook"); [split; reflexivity|].
  destruct (contains t "{{"); [split; reflexivity|].
  destruct (needs_migration t l); split; reflexivity.
Qed.

(** C3: a parsed note whose stored title is the empty string is classified
    OK and is not added to the migration list, whatever its body is. *)
Theorem empty_title_is_ok (name : string) (f : file) (yaml body full : string) :
  parse_note_file f = Some (yaml, body, full) ->
  extract_title_from_yaml yaml = "" ->
  (analyze_note name f).1.2 = OK /\ (analyze_note name f).2 = None.
Proof.
  intros Hp Ht. destruct (analyze_note_parsed name f yaml body full Hp) as [Hc Hr].
  cbv zeta in Hc, Hr. rewrite Ht in Hc, Hr. exact (conj Hc Hr).
Qed.

Lemma empty_title_is_ok_witness :
  parse_note_file untitled_note
  = Some ("tags: x", "Anything", read_text untitled_note)
  /\ extract_title_from_yaml "tags: x" = ""
  /\ (analyze_note "c.md" untitled_note).1.2 = OK
  /\ (analyze_note "c.md" untitled_note).2 = None.
Proof.
  assert (H1 : parse_note_file untitled_note
               = Some ("tags: x", "Anything", read_text untitled_note))
    by reflexivity.
  assert (H2 : extract_title_from_yaml "tags: x" = "") by reflexivity.
  split; [exact H1|]. split; [exact H2|].
  exact (empty_title_is_ok "c.md" untitled_note _ _ _ H1 H2).
Defined.

(** C2, as stated, fails: a stored title that holds the placeholder but
    starts with the marker-file prefix is classified SKIP-MARKER, since the
    driver tests the prefix first. *)
Lemma placeholder_marker_title_is_skip_marker :
  parse_note_file marker_template_note
  = Some ("title: .notebook {{name}}", "x", read_text marker_template_note)
  /\ contains (extract_title_from_yaml "title: .notebook {{name}}") "{{" = true
  /\ (analyze_note "m.md" marker_template_note).1.2 = SKIP_MARKER
  /\ (analyze_note "m.md" marker_template_note).1.2 <> SKIP_TEMPLATE.
Proof. repeat split; try reflexivity. discriminate. Qed.

(** C2, amended: a parsed note whose stored title holds the placeholder is
    never added to the migration list, also when the first line of the body
    equals the title; it is classified SKIP-TEMPLATE unless the title starts
    with [.notebook], and SKIP-MARKER then. *)
Theorem placeholder_title_is_skipped (name : string) (f : file) (yaml body full : string) :
  parse_note_file f = Some (yaml, body, full) ->
  contains (extract_title_from_yaml yaml) "{{" = true ->
  (analyze_note name f).2 = None
  /\ (analyze_note name f).1.2
     = (if startswith (extract_title_from_yaml yaml) ".notebook"
        then SKIP_MARKER else SKIP_TEMPLATE).
Proof.
  intros Hp Ht. destruct (analyze_note_parsed name f yaml body full Hp) as [Hc Hr].
  cbv zeta in Hc, Hr. rewrite Ht in Hc, Hr. rewrite Hc, Hr.
  destruct (startswith _ ".notebook"); split; reflexivity.
Qed.

Lemma placeholder_title_is_skipped_witness :
  parse_note_file template_note
  = Some ("title: {{date}} Notes", "{{date}} Notes", read_text template_note)
  /\ contains (extract_title_from_yaml "title: {{date}} Notes") "{{" = true
  /\ get_first_line_title "{{date}} Notes" = extract_title_from_yaml "title: {{date}} Notes"
  /\ (analyze_note "t.md" template_note).2 = None
  /\ (analyze_note "t.md" template_note).1.2 = SKIP_TEMPLATE.
Proof.
  assert (H1 : parse_note_file template_note
               = Some ("title: {{date}} Notes", "{{date}} Notes", read_text template_note))
    by reflexivity.
  assert (H2 : contains (extract_title_from_yaml "title: {{date}} Notes") "{{" = true)
    by reflexivity.
  split; [exact H1|]. split; [exact H2|]. split; [reflexivity|].
  exact (placeholder_title_is_skipped "t.md" template_note _ _ _ H1 H2).
Defined.

(** C10: on its own, [needs_migration] answers [True] for every stored title
    that holds the placeholder (such a title is not empty), whatever the
    first line is; the driver's earlier test is what keeps such a note out
    of the migration list. *)
Theorem needs_migration_true_on_placeholder (stored_title first_line : string) :
  contains stored_title "{{" = true ->
  stored_title <> ""
  /\ needs_migration stored_title first_line = true
  /\ forall (name : string) (f : file) (yaml body full : string),
       parse_note_file f = Some (yaml, body, full) ->
       extract_title_from_yaml yaml = stored_title ->
       (analyze_note name f).2 = None.
Proof.
  intros Hc. split; [|split].
  - apply (contains_nonempty _ _ Hc). discriminate.
  - apply needs_migration_placeholder, Hc.
  - intros name f yaml body full Hp Ht.
    destruct (analyze_note_parsed name f yaml body full Hp) as [_ Hr].
    cbv zeta in Hr. rewrite Ht, Hc in Hr. rewrite Hr.
    destruct (startswith stored_title ".notebook"); reflexivity.
Qed.

Lemma needs_migration_true_on_placeholder_witness :
  contains "{{date}} Notes" "{{" = true
  /\ needs_migration "{{date}} Notes" "{{date}} Notes" = true
  /\ (analyze_note "t.md" template_note).2 = None.
Proof.
  assert (H : contains "{{date}} Notes" "{{" = true) by reflexivity.
  destruct (needs_migration_true_on_placeholder "{{date}} Notes" "{{date}} Notes" H)
    as (_ & Hn & Hd).
  split; [exact H|]. split; [exact Hn|].
  exact (Hd "t.md" template_note "title: {{date}} Notes" "{{date}} Notes"
            (read_text template_note) eq_refl eq_refl).
Defined.

(** ** The title extractor *)

Lemma split_on_no_sep (c : ascii) (s : string) :
  Forall (fun l => mem_char c l = false) (split_on c s).
Proof.
  induction s as [|a r IH]; simpl.
  - constructor; [reflexivity | constructor].
  - destruct (Ascii.eqb a c) eqn:E.
    + constructor; [reflexivity | exact IH].
    + destruct (split_on c r) as [|h t].
      * constructor; [simpl; rewrite E; reflexivity | constructor].
      * inversion IH; subst. constructor; [simpl; rewrite E; assumption | assumption].
Qed.

Lemma mem_char_drop (c : ascii) (n : nat) (s : string) :
  mem_char c s = false -> mem_char c (drop n s) = false.
Proof.
  revert s. induction n as [|n IH]; intros [|a r] H; simpl; try assumption.
  apply IH. simpl in H. apply orb_false_elim in H. apply H.
Qed.

Lemma mem_char_drop_while (c : ascii) (p : ascii -> bool) (s : string) :
  mem_char c s = false -> mem_char c (drop_while p s) = false.
Proof.
  induction s as [|a r IH]; simpl; intros H; [reflexivity|].
  destruct (p a); [|exact H].
  apply IH. apply orb_false_elim in H. apply H.
Qed.

Lemma mem_char_rstrip (c : ascii) (s : string) :
  mem_char c s = false -> mem_char c (rstrip s) = false.
Proof.
  induction s as [|a r IH]; simpl; intros H; [reflexivity|].
  apply orb_false_elim in H. destruct H as [Ha Hr]. specialize (IH Hr).
  destruct (rstrip r) as [|b r'].
  - destruct (isspace a); simpl; [reflexivity | rewrite Ha; reflexivity].
  - simpl. rewrite Ha. exact IH.
Qed.

Lemma mem_char_strip (c : ascii) (s : string) :
  mem_char c s = false -> mem_char c (strip s) = false.
Proof. intros H. apply mem_char_rstrip, mem_char_drop_while, H. Qed.

Lemma at_dollar_no_lf (r : string) :
  mem_char LF r = false -> at_dollar r = match r with "" => true | _ => false end.
Proof.
  destruct r as [|a [|b r]]; simpl; try reflexivity.
  rewrite orb_false_r. intros ->. reflexivity.
Qed.

Lemma sub_quote_tail_no_lf (s : string) :
  mem_char LF s = false -> sub_quote_tail s = drop_last_quote s.
Proof.
  induction s as [|a r IH]; simpl; intros H; [reflexivity|].
  apply orb_false_elim in H. destruct H as [_ Hr].
  rewrite (at_dollar_no_lf r Hr), (IH Hr).
  destruct r as [|b r]; simpl.
  - rewrite andb_true_r. destruct (is_quote a); reflexivity.
  - rewrite andb_false_r. reflexivity.
Qed.

Lemma sub_quotes_no_lf (v : string) :
  mem_char LF v = false -> sub_quotes v = unquote_ends v.
Proof.
  destruct v as [|a r]; simpl; intros H; [reflexivity|].
  apply orb_false_elim in H. destruct H as [Ha Hr].
  unfold unquote_ends. simpl. rewrite (sub_quote_tail_no_lf r Hr).
  destruct (is_quote a) eqn:Q; [reflexivity|].
  destruct r as [|b r]; simpl; rewrite ?Q; reflexivity.
Qed.

Lemma extract_title_loop_find (lines : list string) :
  extract_title_loop lines
  = match head_line lines with
    | None => ""
    | Some line => sub_quotes (strip (drop 6 line))
    end.
Proof.
  unfold head_line. induction lines as [|l rest IH]; [reflexivity|].
  cbn [extract_title_loop find].
  destruct (startswith l "title:"); [reflexivity | exact IH].
Qed.

(** C5, as stated, fails: a value with one leading quote and no closing
    one loses that quote, where the claim keeps it for want of a pair. *)
Lemma lone_quote_is_stripped :
  extract_title_from_yaml ("title: " +:+ String DQUOTE "abc") = "abc"
  /\ extract_title_claimed ("title: " +:+ String DQUOTE "abc") = String DQUOTE "abc"
  /\ extract_title_from_yaml ("title: " +:+ String DQUOTE "abc")
     <> extract_title_claimed ("title: " +:+ String DQUOTE "abc").
Proof. repeat split; try reflexivity. discriminate. Qed.

(** C5, amended: the extractor answers with the value of the first line
    that begins with [title:] (later ones are ignored), trimmed, with a
    leading quote character removed if there is one and a trailing quote
    character removed if there is one, each on its own account; and with
    the empty string when no line begins with [title:]. *)
Theorem extract_title_first_line (yaml_content : string) :
  extract_title_from_yaml yaml_content
  = match head_line (split_on LF yaml_content) with
    | None => ""
    | Some line => unquote_ends (strip (drop 6 line))
    end.
Proof.
  unfold extract_title_from_yaml. rewrite extract_title_loop_find.
  destruct (head_line (split_on LF yaml_content)) as [line|] eqn:E; [|reflexivity].
  apply sub_quotes_no_lf, mem_char_strip, mem_char_drop.
  apply find_some in E. destruct E as [Hin _].
  pose proof (split_on_no_sep LF yaml_content) as HF.
  rewrite List.Forall_forall in HF. apply HF, Hin.
Qed.

(** ** The first line of the body *)

Lemma drop_while_hashes (n : nat) (s : string) :
  head_not is_hash s = true ->
  drop_while (fun a => Ascii.eqb a HASH) (hashes n +:+ s) = s.
Proof.
  intros H. induction n as [|n IH]; simpl.
  - destruct s as [|c r]; [reflexivity|]. cbn in *. unfold is_hash in H.
    destruct (Ascii.eqb c HASH); [discriminate H | reflexivity].
  - cbn. exact IH.
Qed.

Lemma drop_while_all (p : ascii -> bool) (w r : string) :
  all_chars p w = true -> head_not p r = true -> drop_while p (w +:+ r) = r.
Proof.
  intros Hw Hr. induction w as [|c w IH]; simpl in *.
  - destruct r as [|a r]; [reflexivity|]. cbn in *.
    destruct (p a); [discriminate Hr | reflexivity].
  - apply andb_prop in Hw. destruct Hw as [Hc Hw]. cbn. rewrite Hc. exact (IH Hw).
Qed.

Lemma sub_heading_no_hash (l : string) :
  startswith l "#" = false -> sub_heading l = l.
Proof.
  destruct l as [|c r]; [reflexivity|]. simpl. unfold HASH.
  destruct (Ascii.eqb c "#"%char); [discriminate | reflexivity].
Qed.

Lemma sub_heading_hashes (n : nat) (w r : string) :
  all_chars isspace w = true ->
  head_not isspace r = true ->
  head_not is_hash (w +:+ r) = true ->
  sub_heading (hashes (S n) +:+ w +:+ r) = r.
Proof.
  intros Hw Hr Hh.
  change (hashes (S n) +:+ w +:+ r) with (String HASH (hashes n +:+ w +:+ r)).
  unfold sub_heading. rewrite Ascii.eqb_refl.
  rewrite (drop_while_hashes n _ Hh). apply drop_while_all; assumption.
Qed.

(** C6, as stated, fails: a first line whose [#] is not followed by
    whitespace loses the [#] all the same. *)
Lemma hash_without_space_is_stripped :
  get_first_line_title "#tag" = "tag"
  /\ get_first_line_title_claimed "#tag" = "#tag"
  /\ get_first_line_title "#tag" <> get_first_line_title_claimed "#tag".
Proof. repeat split; try reflexivity. discriminate. Qed.

(** C6, amended: the first line used in the decision is the trimmed first
    line of the body when that does not begin with [#]; when it is [n+1]
    characters [#], then a run [w] of whitespace that may be empty, then a
    rest [r] that does not go on with whitespace (nor with [#] right after
    the run of [#]), it is [r]: the run of [#] is removed whether or not
    whitespace follows it. *)
Theorem first_line_heading_stripped (body : string) :
  body <> "" ->
  let l := strip (hd "" (split_on LF body)) in
  (startswith l "#" = false -> get_first_line_title body = l)
  /\ (forall (n : nat) (w r : string),
        l = hashes (S n) +:+ w +:+ r ->
        all_chars isspace w = true ->
        head_not isspace r = true ->
        head_not is_hash (w +:+ r) = true ->
        get_first_line_title body = r).
Proof.
  intros Hb l.
  assert (Hg : get_first_line_title body = sub_heading l).
  { destruct body; [congruence | reflexivity]. }
  rewrite Hg. split.
  - apply sub_heading_no_hash.
  - intros n w r -> Hw Hr Hh. apply sub_heading_hashes; assumption.
Qed.

Lemma first_line_heading_stripped_witness :
  "#tag" <> ""
  /\ strip (hd "" (split_on LF "#tag")) = hashes 1 +:+ "" +:+ "tag"
  /\ get_first_line_title "#tag" = "tag".
Proof.
  assert (H : "#tag" <> "") by discriminate.
  split; [exact H|]. split; [reflexivity|].
  exact (proj2 (first_line_heading_stripped "#tag" H) 0%nat "" "tag"
               eq_refl eq_refl eq_refl eq_refl).
Defined.

(** ** The note parser *)

Section Text.

Lemma append_assoc (a b c : string) : (a +:+ b) +:+ c = a +:+ b +:+ c.
Proof. induction a as [|x a IH]; simpl; [reflexivity | rewrite IH; reflexivity]. Qed.

Lemma append_nil_r (a : string) : a +:+ "" = a.
Proof. induction a as [|x a IH]; simpl; [reflexivity | rewrite IH; reflexivity]. Qed.

Lemma length_append (a b : string) :
  String.length (a +:+ b) = (String.length a + String.length b)%nat.
Proof. induction a as [|x a IH]; simpl; [reflexivity | rewrite IH; reflexivity]. Qed.

Lemma startswith_split (s p : string) :
  startswith s p = true -> s = p +:+ drop (String.length p) s.
Proof.
  revert s. induction p as [|x p IH]; intros s H; [reflexivity|].
  destruct s as [|c s]; simpl in H; [discriminate|].
  destruct (Ascii.eqb_spec c x) as [->|]; [|discriminate].
  simpl. f_equal. apply IH, H.
Qed.

Lemma startswith_append_r (s w p : string) :
  startswith s p = true -> startswith (s +:+ w) p = true.
Proof.
  revert s. induction p as [|x p IH]; intros s H; [reflexivity|].
  destruct s as [|c s]; simpl in *; [discriminate|].
  destruct (Ascii.eqb c x); [apply IH, H | discriminate].
Qed.

Lemma startswith_long (s w p : string) :
  (String.length p <= String.length s)%nat ->
  startswith (s +:+ w) p = startswith s p.
Proof.
  revert s. induction p as [|x p IH]; intros s H; [reflexivity|].
  destruct s as [|c s]; simpl in *; [lia|].
  destruct (Ascii.eqb c x); [apply IH; lia | reflexivity].
Qed.

Lemma occurrences_append_r (sep s w : string) :
  occurrences sep (s +:+ w) = O -> occurrences sep s = O.
Proof.
  induction s as [|c s IH]; simpl; intros H.
  - destruct (startswith "" sep) eqn:E; [|reflexivity].
    destruct sep; [|discriminate E]. destruct w; discriminate H.
  - destruct (startswith (String c (s +:+ w)) sep) eqn:E; [discriminate H|].
    destruct (startswith (String c s) sep) eqn:E'.
    + apply (startswith_append_r _ w) in E'. simpl in E'. congruence.
    + apply IH, H.
Qed.

Lemma occurrences_drop_while (sep : string) (p : ascii -> bool) (s : string) :
  occurrences sep s = O -> occurrences sep (drop_while p s) = O.
Proof.
  induction s as [|c s IH]; intros H; [exact H|].
  cbn [drop_while]. destruct (p c); [|exact H].
  apply IH. cbn [occurrences] in H. lia.
Qed.

(** What [rstrip] removes is a run of whitespace at the end. *)
Lemma rstrip_split (s : string) :
  exists w : string, s = rstrip s +:+ w /\ all_chars isspace w = true.
Proof.
  induction s as [|c s (w & Hs & Hw)]; [exists ""; split; reflexivity|].
  cbn [rstrip]. destruct (rstrip s) as [|b r] eqn:E.
  - simpl in Hs. subst w. destruct (isspace c) eqn:Hc.
    + exists (String c s). split; [reflexivity|]. simpl. rewrite Hc. exact Hw.
    + exists s. split; [reflexivity | exact Hw].
  - exists w. split; [|exact Hw]. simpl. f_equal. exact Hs.
Qed.

Lemma occurrences_strip (sep s : string) :
  occurrences sep s = O -> occurrences sep (strip s) = O.
Proof.
  intros H. unfold strip, lstrip.
  apply (occurrences_drop_while sep isspace) in H.
  destruct (rstrip_split (drop_while isspace s)) as (w & Hs & _).
  rewrite Hs in H. exact (occurrences_append_r _ _ _ H).
Qed.

Lemma lstrip_space_l (w s : string) :
  all_chars isspace w = true -> lstrip (w +:+ s) = lstrip s.
Proof.
  intros Hw. induction w as [|c w IH]; [reflexivity|].
  simpl in Hw. apply andb_prop in Hw. destruct Hw as [Hc Hw].
  unfold lstrip in *. simpl. rewrite Hc. exact (IH Hw).
Qed.

Lemma rstrip_space (w : string) : all_chars isspace w = true -> rstrip w = "".
Proof.
  induction w as [|c w IH]; [reflexivity|]. simpl. intros Hw.
  apply andb_prop in Hw. destruct Hw as [Hc Hw]. rewrite (IH Hw), Hc. reflexivity.
Qed.

Lemma rstrip_space_r (s w : string) :
  all_chars isspace w = true -> rstrip (s +:+ w) = rstrip s.
Proof.
  intros Hw. induction s as [|c s IH]; simpl.
  - apply rstrip_space, Hw.
  - rewrite IH. reflexivity.
Qed.

Lemma rstrip_idem (s : string) : rstrip (rstrip s) = rstrip s.
Proof.
  destruct (rstrip_split s) as (w & Hs & Hw).
  rewrite Hs at 2. symmetry. apply rstrip_space_r, Hw.
Qed.

Lemma head_not_drop_while (p : ascii -> bool) (s : string) :
  head_not p (drop_while p s) = true.
Proof.
  induction s as [|c s IH]; [reflexivity|]. simpl.
  destruct (p c) eqn:E; [exact IH | simpl; rewrite E; reflexivity].
Qed.

Lemma head_not_rstrip (s : string) :
  head_not isspace s = true -> head_not isspace (rstrip s) = true.
Proof.
  destruct s as [|c s]; [reflexivity|]. simpl. intros H.
  destruct (rstrip s); destruct (isspace c) eqn:E;
    try discriminate H; simpl; rewrite E; reflexivity.
Qed.

Lemma head_not_strip (s : string) : head_not isspace (strip s) = true.
Proof. apply head_not_rstrip, head_not_drop_while. Qed.

Lemma lstrip_head_not (s : string) : head_not isspace s = true -> lstrip s = s.
Proof.
  destruct s as [|c s]; [reflexivity|]. unfold lstrip. simpl.
  destruct (isspace c); [discriminate | reflexivity].
Qed.

(** Trimming a trimmed text again, with whitespace put around it, gives
    the trimmed text back. *)
Lemma strip_padded (w1 w2 x : string) :
  all_chars isspace w1 = true ->
  all_chars isspace w2 = true ->
  strip (w1 +:+ strip x +:+ w2) = strip x.
Proof.
  intros H1 H2. unfold strip at 1. rewrite (lstrip_space_l _ _ H1).
  pose proof (head_not_strip x) as Hh.
  destruct (strip x) as [|c r] eqn:E.
  - simpl. unfold lstrip.
    replace (drop_while isspace w2) with "".
    + reflexivity.
    + clear -H2. induction w2 as [|c w IH]; [reflexivity|]. simpl in *.
      apply andb_prop in H2. destruct H2 as [-> H2]. apply IH, H2.
  - rewrite lstrip_head_not.
    + rewrite (rstrip_space_r _ _ H2). rewrite <- E. unfold strip. apply rstrip_idem.
    + exact Hh.
Qed.

End Text.

Section Cutting.

Lemma occurrences_marker_head (b : string) :
  occurrences marker (marker +:+ b) = S (occurrences marker b).
Proof. reflexivity. Qed.

Lemma startswith_marker_cons (c : ascii) (a b : string) :
  startswith (String c (a +:+ marker +:+ b)) marker
  = startswith (String c (a +:+ "---")) marker.
Proof.
  change (a +:+ marker +:+ b) with (a +:+ "---" +:+ nl +:+ b).
  rewrite <- (append_assoc a "---").
  change (String c ((a +:+ "---") +:+ nl +:+ b))
    with (String c (a +:+ "---") +:+ nl +:+ b).
  apply startswith_long.
  cbn [String.length]. rewrite length_append. simpl. lia.
Qed.

Lemma cut_marker_some (s a b : string) :
  cut marker s = Some (a, b) ->
  s = a +:+ marker +:+ b
  /\ occurrences marker (a +:+ "---") = O
  /\ occurrences marker s = S (occurrences marker b).
Proof.
  revert a b. induction s as [|c s IH]; intros a b H; [discriminate H|].
  cbn [cut] in H. destruct (startswith (String c s) marker) eqn:E.
  - injection H as <- Hb. apply startswith_split in E.
    assert (Hd : drop (String.length marker) (String c s) = b) by exact Hb.
    rewrite Hd in E.
    rewrite E. split; [reflexivity|]. split; [reflexivity|].
    apply occurrences_marker_head.
  - destruct (cut marker s) as [[a' b']|] eqn:C; [|discriminate H].
    injection H as <- <-. destruct (IH a' b' eq_refl) as (Hs & Ha & Ho).
    split; [|split].
    + simpl. f_equal. exact Hs.
    + change (String c a' +:+ "---") with (String c (a' +:+ "---")).
      cbn [occurrences]. rewrite Ha.
      rewrite Hs, startswith_marker_cons in E. rewrite E. reflexivity.
    + cbn [occurrences]. rewrite E, Ho. reflexivity.
Qed.

Lemma cut_marker_none (s : string) :
  cut marker s = None -> occurrences marker s = O.
Proof.
  induction s as [|c s IH]; intros H; [reflexivity|].
  cbn [cut] in H. cbn [occurrences].
  destruct (startswith (String c s) marker); [discriminate H|].
  destruct (cut marker s) as [[a b]|]; [discriminate H|].
  rewrite IH; reflexivity.
Qed.

(** The leftmost marker is where [cut] cuts. *)
Lemma cut_marker_first (a b : string) :
  occurrences marker (a +:+ "---") = O ->
  cut marker (a +:+ marker +:+ b) = Some (a, b).
Proof.
  induction a as [|c a IH]; intros H; [reflexivity|].
  change (String c a +:+ "---") with (String c (a +:+ "---")) in H.
  cbn [occurrences] in H.
  destruct (startswith (String c (a +:+ "---")) marker) eqn:E; [discriminate H|].
  change (String c a +:+ marker +:+ b) with (String c (a +:+ marker +:+ b)).
  cbn [cut].
  rewrite startswith_marker_cons, E, IH; [reflexivity | exact H].
Qed.

(** The two ways [parse_note_text] can go. *)
Lemma parse_note_text_cases (content : string) :
  ((occurrences marker content < 2)%nat /\ parse_note_text content = None)
  \/ (exists pre yaml body : string,
        content = pre +:+ marker +:+ yaml +:+ marker +:+ body
        /\ occurrences marker (pre +:+ "---") = O
        /\ occurrences marker (yaml +:+ "---") = O
        /\ (2 <= occurrences marker content)%nat
        /\ parse_note_text content = Some (strip yaml, strip body, content)).
Proof.
  unfold parse_note_text. cbn [split_max].
  destruct (cut marker content) as [[pre rest]|] eqn:C1.
  - destruct (cut_marker_some _ _ _ C1) as (H1 & P1 & O1).
    destruct (cut marker rest) as [[yaml body]|] eqn:C2.
    + destruct (cut_marker_some _ _ _ C2) as (H2 & P2 & O2).
      right. exists pre, yaml, body. rewrite H1 at 1. rewrite H2 at 1.
      repeat split; try assumption; try reflexivity. lia.
    + left. apply cut_marker_none in C2. split; [lia | reflexivity].
  - left. apply cut_marker_none in C1. split; [lia | reflexivity].
Qed.

Lemma endswith_tail (c : ascii) (s suf : string) :
  endswith (String c s) suf = false ->
  String.eqb (String c s) suf = false /\ endswith s suf = false.
Proof. cbn [endswith]. intros H. apply orb_false_elim in H. exact H. Qed.

(** A metadata block without a marker inside and without [---] at its
    end leaves no marker before the one the writer puts after it. *)
Lemma no_marker_before_closing (m : string) :
  occurrences marker m = O ->
  endswith m "---" = false ->
  occurrences marker ((m +:+ nl) +:+ "---") = O.
Proof.
  induction m as [|c m IH]; intros Ho He; [reflexivity|].
  apply endswith_tail in He. destruct He as [Hq He].
  cbn [occurrences] in Ho.
  destruct (startswith (String c m) marker) eqn:E; [discriminate Ho|].
  specialize (IH Ho He).
  change ((String c m +:+ nl) +:+ "---") with (String c ((m +:+ nl) +:+ "---")).
  cbn [occurrences]. rewrite IH.
  replace (startswith (String c ((m +:+ nl) +:+ "---")) marker) with false;
    [reflexivity|].
  clear IH Ho He. symmetry.
  destruct m as [|c1 [|c2 [|c3 m]]].
  - simpl. destruct (Ascii.eqb c "-"); reflexivity.
  - simpl. destruct (Ascii.eqb c "-"), (Ascii.eqb c1 "-"); reflexivity.
  - simpl in *.
    destruct (Ascii.eqb c "-"), (Ascii.eqb c1 "-"), (Ascii.eqb c2 "-");
      try reflexivity; discriminate Hq.
  - simpl in *. exact E.
Qed.

End Cutting.

(** C4, as stated, fails in both directions: a text without any line that
    is [---] alone is parsed (with a preamble that is not empty) when
    [---] ends two of its lines, and a text with two lines that are [---]
    alone is not parsed when the second one ends the text without a line
    feed. *)
Lemma parser_ignores_line_structure :
  marker_lines inline_dashes_note = 0%nat
  /\ parse_note_text inline_dashes_note = Some ("t", "x", inline_dashes_note)
  /\ split_max marker inline_dashes_note 2 = ["a"; "t"; "x"]
  /\ marker_lines short_note = 2%nat
  /\ parse_note_text short_note = None.
Proof. repeat split; reflexivity. Qed.

(** C4, amended: the parser succeeds exactly when the text holds at least
    two occurrences of the four characters [---] and line feed, wherever
    in a line they stand; it then cuts the text at the first two of them
    into a preamble (whatever precedes the first one), the metadata and the
    body, and answers with the metadata and the body, each trimmed of
    surrounding whitespace, and the text; with fewer than two occurrences
    it answers with the not-parseable result instead of failing. *)
Theorem parse_note_text_two_markers (content : string) :
  if (2 <=? occurrences marker content)%nat
  then exists pre yaml body : string,
         content = pre +:+ marker +:+ yaml +:+ marker +:+ body
         /\ occurrences marker (pre +:+ "---") = O
         /\ occurrences marker (yaml +:+ "---") = O
         /\ parse_note_text content = Some (strip yaml, strip body, content)
  else parse_note_text content = None.
Proof.
  destruct (parse_note_text_cases content)
    as [[Hlt Hp] | (pre & yaml & body & Hc & Hpre & Hyaml & Hge & Hp)].
  - destruct (Nat.leb_spec 2 (occurrences marker content)); [lia | exact Hp].
  - destruct (Nat.leb_spec 2 (occurrences marker content)); [|lia].
    exists pre, yaml, body. repeat split; assumption.
Qed.

(** ** Parsing what the writer lays out *)

Lemma full_content_serialize (stored_title yaml_content note_content : string) :
  full_content stored_title yaml_content note_content
  = serialize yaml_content (new_content stored_title note_content).
Proof. reflexivity. Qed.

(** C9, as stated, fails: a note with exactly two marker lines, the first
    of them its first line, whose metadata ends in [---] before trailing
    blanks, does not come back from laying out and parsing again. *)
Lemma reparse_loses_trailing_dashes :
  startswith loose_dashes_note marker = true
  /\ marker_lines loose_dashes_note = 2%nat
  /\ occurrences marker loose_dashes_note = 2%nat
  /\ parse_note_text loose_dashes_note = Some ("a---", "b", loose_dashes_note)
  /\ parse_note_text (serialize "a---" "b")
     = Some ("a", "---" +:+ nl +:+ nl +:+ "b", serialize "a---" "b")
  /\ parse_note_text (serialize "a---" "b")
     <> Some ("a---", "b", serialize "a---" "b").
Proof. repeat split; try reflexivity. discriminate. Qed.

(** C9, amended: for every text the parser accepts, with metadata block
    [m] and body [b], if [m] does not end in [---] then laying [m] and [b]
    out in the writer's format and parsing the result gives [m] and [b]
    again. *)
Theorem reparse_serialized (content m b full : string) :
  parse_note_text content = Some (m, b, full) ->
  endswith m "---" = false ->
  parse_note_text (serialize m b) = Some (m, b, serialize m b).
Proof.
  intros Hp He.
  destruct (parse_note_text_cases content)
    as [[_ Hn] | (pre & yaml & body & _ & _ & Hyaml & _ & Hs)]; [congruence|].
  rewrite Hs in Hp. injection Hp as <- <- _.
  assert (Hm : occurrences marker (strip yaml) = O).
  { apply occurrences_strip. exact (occurrences_append_r _ _ _ Hyaml). }
  pose proof (no_marker_before_closing _ Hm He) as Hc.
  assert (Hl : serialize (strip yaml) (strip body)
               = "" +:+ marker +:+ (strip yaml +:+ nl) +:+ marker
                 +:+ (nl +:+ strip body +:+ nl)).
  { unfold serialize, marker. simpl. rewrite !append_assoc. reflexivity. }
  unfold parse_note_text at 1. rewrite Hl at 1. cbn [split_max].
  rewrite (cut_marker_first "" _ eq_refl).
  rewrite (cut_marker_first (strip yaml +:+ nl) _ Hc).
  pose proof (strip_padded "" nl yaml eq_refl eq_refl) as Hy.
  change ("" +:+ strip yaml +:+ nl) with (strip yaml +:+ nl) in Hy.
  rewrite Hy, (strip_padded nl nl body eq_refl eq_refl).
  reflexivity.
Qed.

Lemma reparse_serialized_witness :
  parse_note_text (f_text grocery_note)
  = Some ("title: Grocery List", "Grocery Lists" +:+ nl +:+ "Milk" +:+ nl +:+ "Eggs",
          f_text grocery_note)
  /\ endswith "title: Grocery List" "---" = false
  /\ parse_note_text
       (serialize "title: Grocery List"
          ("Grocery Lists" +:+ nl +:+ "Milk" +:+ nl +:+ "Eggs"))
     = Some ("title: Grocery List", "Grocery Lists" +:+ nl +:+ "Milk" +:+ nl +:+ "Eggs",
             serialize "title: Grocery List"
               ("Grocery Lists" +:+ nl +:+ "Milk" +:+ nl +:+ "Eggs")).
Proof.
  assert (H1 : parse_note_text (f_text grocery_note)
               = Some ("title: Grocery List",
                       "Grocery Lists" +:+ nl +:+ "Milk" +:+ nl +:+ "Eggs",
                       f_text grocery_note)) by reflexivity.
  assert (H2 : endswith "title: Grocery List" "---" = false) by reflexivity.
  split; [exact H1|]. split; [exact H2|].
  exact (reparse_serialized _ _ _ _ H1 H2).
Defined.

(** ** The driver *)

Section Driver.

Lemma analyze_note_record (name : string) (f : file) (p : pending) :
  (analyze_note name f).2 = Some p -> p_file p = name.
Proof.
  unfold analyze_note.
  destruct (parse_note_file f) as [[[yaml body] full]|]; [|discriminate].
  destruct (startswith _ ".notebook"); [discriminate|].
  destruct (contains _ "{{"); [discriminate|].
  destruct (needs_migration _ _); [|discriminate].
  intros [= <-]. reflexivity.
Qed.

Lemma analyze_loop_names (note_files : list (string * file)) :
  (p_file <$> (analyze_loop note_files).2) `sublist_of` note_files.*1.
Proof.
  induction note_files as [|[name f] rest IH]; [constructor|].
  cbn [analyze_loop].
  destruct (analyze_note name f) as [[out c] rec] eqn:E.
  destruct (analyze_loop rest) as [out' pend].
  destruct rec as [p|]; simpl in *.
  - rewrite (analyze_note_record name f p) by (rewrite E; reflexivity).
    apply sublist_skip, IH.
  - apply sublist_cons, IH.
Qed.

Lemma pending_of_names (d : gmap string file) :
  (p_file <$> pending_of d) `sublist_of` (map_to_list d).*1.
Proof.
  unfold pending_of. etransitivity; [apply analyze_loop_names|].
  unfold glob_md. apply fmap_sublist, sublist_filter.
Qed.

Lemma pending_of_NoDup (d : gmap string file) : NoDup (p_file <$> pending_of d).
Proof.
  eapply sublist_NoDup; [apply (NoDup_fst_map_to_list d) | apply pending_of_names].
Qed.

Lemma pending_of_lookup (d : gmap string file) (p : pending) :
  p ∈ pending_of d -> is_Some (d !! p_file p).
Proof.
  intros Hp.
  assert (Hin : p_file p ∈ (map_to_list d).*1).
  { eapply elem_of_sublist; [|apply pending_of_names].
    apply list_elem_of_fmap_2, Hp. }
  apply list_elem_of_fmap in Hin. destruct Hin as ([k f] & -> & Hkf).
  apply elem_of_map_to_list in Hkf. exists f. exact Hkf.
Qed.

Lemma processed_mono (d d' : gmap string file)
    (line : string) (out : list string) (p : pending) :
  processed d d' out p -> processed d d' (line :: out) p.
Proof.
  unfold processed.
  destruct (d !! p_file p) as [f|]; [destruct (f_write f) as [|e remains]|];
    intros [H1 H2]; (split; [exact H1 | apply elem_of_cons; right; exact H2]).
Qed.

(** The migration loop deals with every record of its list, whatever
    becomes of the others, and touches no other file. *)
Lemma migrate_loop_spec (ps : list pending) :
  NoDup (p_file <$> ps) ->
  forall d : gmap string file,
    (forall name : string,
        name ∉ p_file <$> ps -> (migrate_loop ps d).2 !! name = d !! name)
    /\ (forall p : pending,
           p ∈ ps ->
           processed d (migrate_loop ps d).2 (migrate_loop ps d).1.1 p).
Proof.
  induction ps as [|q rest IH]; intros Hnd d.
  - split; [reflexivity|]. intros p Hp. inversion Hp.
  - rewrite fmap_cons in Hnd. apply NoDup_cons in Hnd. destruct Hnd as [Hq Hnd].
    specialize (IH Hnd). cbn [migrate_loop]. unfold migrate_note, write_text.
    assert (Hkeep : forall p : pending, p ∈ rest -> p_file p <> p_file q).
    { intros p Hp Heq. apply Hq. rewrite <- Heq. apply list_elem_of_fmap_2, Hp. }
    assert (Hwrite :
      forall (x : file) (p : pending) (d' : gmap string file) (out : list string),
        p ∈ rest ->
        processed (<[p_file q := x]> d) d' out p -> processed d d' out p).
    { intros x p d' out Hp. unfold processed.
      rewrite lookup_insert_ne by (apply not_eq_sym, Hkeep, Hp). trivial. }
    destruct (d !! p_file q) as [f|] eqn:Hf; [destruct (f_write f) as [|e remains] eqn:Hw|];
      match goal with
      | |- context [migrate_loop rest (<[p_file q := ?x]> d)] =>
          destruct (IH (<[p_file q := x]> d)) as [Hother Hrest];
          destruct (migrate_loop rest (<[p_file q := x]> d)) as [[out n] d2]
      end;
      cbn [fst snd] in *; (split;
        [ intros name Hname; rewrite fmap_cons in Hname;
          apply not_elem_of_cons in Hname; destruct Hname as [Hne Hname];
          rewrite (Hother name Hname); apply lookup_insert_ne; congruence
        | intros p Hp; apply elem_of_cons in Hp; destruct Hp as [->|Hp];
          [ unfold processed; rewrite Hf, ?Hw; split;
            [ rewrite (Hother _ Hq); apply lookup_insert_eq
            | apply elem_of_cons; left; reflexivity ]
          | eapply processed_mono, Hwrite, Hrest; exact Hp ] ]).
Qed.

(** [main] up to the prompt, and the two ways it goes on from there. *)
Lemma main_at_prompt (home now response : string) (w : world) (d : gmap string file) :
  w_notes w = Some d ->
  w_siblings w !! backup_name now = None ->
  pending_of d <> [] ->
  exists out : list string,
    main home now response w
    = if negb (String.eqb (lower response) "y")
      then (Returned 0,
            World (Some d) (<[backup_name now := d]> (w_siblings w)),
            out ++ ["Migration cancelled."])
      else (Returned 0,
            World (Some (migrate_loop (pending_of d) d).2)
                  (<[backup_name now := d]> (w_siblings w)),
            out ++ ["Starting migration..."]
            ++ (migrate_loop (pending_of d) d).1.1
            ++ report home now (migrate_loop (pending_of d) d).1.2).
Proof.
  intros Hn Hb Hp. unfold main. rewrite Hn, Hb. cbv zeta.
  unfold pending_of in *.
  destruct (glob_md d) as [|e files] eqn:G; [contradiction Hp; reflexivity|].
  destruct (analyze_loop (e :: files)) as [outa pend] eqn:A.
  cbn [snd] in *. destruct pend as [|p pend]; [congruence|].
  eexists. destruct (negb (String.eqb (lower response) "y")); [reflexivity|].
  destruct (migrate_loop (p :: pend) d) as [[outm n] d'].
  reflexivity.
Qed.

End Driver.

(** C7: when the migration list is not empty and the answer at the prompt
    is anything but "y" (compared after lowering its case), the run returns
    0, no file of the notes directory is written (the directory is what it
    was before the run), and the backup made earlier is still there, a copy
    of the notes directory. *)
Theorem cancelled_run_writes_nothing
    (home now response : string) (w : world) (d : gmap string file) :
  w_notes w = Some d ->
  w_siblings w !! backup_name now = None ->
  pending_of d <> [] ->
  lower response <> "y" ->
  exists (w' : world) (out : list string),
    main home now response w = (Returned 0, w', out)
    /\ w_notes w' = Some d
    /\ w_siblings w' !! backup_name now = Some d
    /\ (forall k : string, k <> backup_name now -> w_siblings w' !! k = w_siblings w !! k)
    /\ last out = Some "Migration cancelled.".
Proof.
  intros Hn Hb Hp Hr.
  destruct (main_at_prompt home now response w d Hn Hb Hp) as [out Hm].
  apply String.eqb_neq in Hr. rewrite Hr in Hm. cbn [negb] in Hm.
  eexists _, _. split; [exact Hm|]. cbn [w_notes w_siblings].
  split; [reflexivity|]. split; [apply lookup_insert_eq|].
  split; [|apply last_snoc].
  intros k Hk. apply lookup_insert_ne. congruence.
Qed.

Lemma cancelled_run_writes_nothing_witness :
  w_notes sample_world = Some sample_dir
  /\ w_siblings sample_world !! backup_name "20260101_093000" = None
  /\ pending_of sample_dir <> []
  /\ lower "No" <> "y"
  /\ exists (w' : world) (out : list string),
       main "/home/u" "20260101_093000" "No" sample_world = (Returned 0, w', out)
       /\ w_notes w' = Some sample_dir
       /\ w_siblings w' !! backup_name "20260101_093000" = Some sample_dir
       /\ (forall k : string,
              k <> backup_name "20260101_093000" ->
              w_siblings w' !! k = w_siblings sample_world !! k)
       /\ last out = Some "Migration cancelled.".
Proof.
  assert (H1 : w_notes sample_world = Some sample_dir) by reflexivity.
  assert (H2 : w_siblings sample_world !! backup_name "20260101_093000" = None)
    by reflexivity.
  assert (H3 : pending_of sample_dir <> []) by (vm_compute; discriminate).
  assert (H4 : lower "No" <> "y") by (vm_compute; discriminate).
  split; [exact H1|]. split; [exact H2|]. split; [exact H3|]. split; [exact H4|].
  exact (cancelled_run_writes_nothing "/home/u" "20260101_093000" "No"
           sample_world sample_dir H1 H2 H3 H4).
Defined.

(** C8: in the migration phase a write that fails is caught for that file
    alone and reported on an ERROR line that ends with the text of the
    exception, every record of the list is still dealt with (its file
    written, with a MIGRATED line, when the write succeeds; its file as
    the failed write leaves it, with the ERROR line, when the write
    fails, whatever the failure is), files outside the list are untouched,
    and the run returns 0 all the same. *)
Theorem write_failure_does_not_abort
    (home now response : string) (w : world) (d : gmap string file) :
  w_notes w = Some d ->
  w_siblings w !! backup_name now = None ->
  pending_of d <> [] ->
  lower response = "y" ->
  exists (d' : gmap string file) (out : list string),
    main home now response w
    = (Returned 0, World (Some d') (<[backup_name now := d]> (w_siblings w)), out)
    /\ (forall p : pending, p ∈ pending_of d -> processed d d' out p)
    /\ (forall name : string, name ∉ p_file <$> pending_of d -> d' !! name = d !! name).
Proof.
  intros Hn Hb Hp Hr.
  destruct (main_at_prompt home now response w d Hn Hb Hp) as [out Hm].
  rewrite Hr in Hm. cbn [String.eqb Ascii.eqb Bool.eqb negb] in Hm.
  destruct (migrate_loop_spec (pending_of d) (pending_of_NoDup d) d)
    as [Hother Hall].
  eexists _, _. split; [exact Hm|]. split; [|exact Hother].
  intros p Hin. specialize (Hall p Hin). revert Hall. unfold processed.
  destruct (d !! p_file p) as [f|]; [destruct (f_write f) as [|e remains]|];
    intros [H1 H2]; (split; [exact H1|]);
    apply elem_of_app; right; apply elem_of_cons; right;
    apply elem_of_app; left; exact H2.
Qed.

Lemma write_failure_does_not_abort_witness :
  w_notes sample_world = Some sample_dir
  /\ w_siblings sample_world !! backup_name "20260101_093000" = None
  /\ pending_of sample_dir <> []
  /\ lower "Y" = "y"
  /\ sample_dir !! "b.md" = Some locked_note
  /\ f_writable locked_note = false
  /\ sample_dir !! "d.md" = Some full_disk_note
  /\ f_writable full_disk_note = false
  /\ exists (d' : gmap string file) (out : list string),
       main "/home/u" "20260101_093000" "Y" sample_world
       = (Returned 0,
          World (Some d') (<[backup_name "20260101_093000" := sample_dir]>
                             (w_siblings sample_world)), out)
       /\ (forall p : pending,
              p ∈ pending_of sample_dir -> processed sample_dir d' out p)
       /\ (forall name : string,
              name ∉ p_file <$> pending_of sample_dir ->
              d' !! name = sample_dir !! name).
Proof.
  assert (H1 : w_notes sample_world = Some sample_dir) by reflexivity.
  assert (H2 : w_siblings sample_world !! backup_name "20260101_093000" = None)
    by reflexivity.
  assert (H3 : pending_of sample_dir <> []) by (vm_compute; discriminate).
  assert (H4 : lower "Y" = "y") by reflexivity.
  split; [exact H1|]. split; [exact H2|]. split; [exact H3|]. split; [exact H4|].
  split; [vm_compute; reflexivity|]. split; [reflexivity|].
  split; [vm_compute; reflexivity|]. split; [reflexivity|].
  exact (write_failure_does_not_abort "/home/u" "20260101_093000" "Y"
           sample_world sample_dir H1 H2 H3 H4).
Defined.

(** The answers that confirm the migration are [y] and [Y], and no other. *)
Lemma lower_is_y (response : string) :
  lower response = "y" <-> response = "y" \/ response = "Y".
Proof.
  split.
  - destruct response as [|c [|c' r]]; [discriminate | | discriminate].
    destruct c as [[] [] [] [] [] [] [] []]; vm_compute; intros H;
      first [discriminate H | left; reflexivity | right; reflexivity].
  - intros [-> | ->]; reflexivity.
Qed.

(** * Further properties of the driver *)

Section Runs.

Lemma analyze_note_some (name : string) (f : file) (p : pending) :
  (analyze_note name f).2 = Some p <->
  exists yaml body full : string,
    parse_note_file f = Some (yaml, body, full)
    /\ p = Pending name (extract_title_from_yaml yaml) yaml body
    /\ startswith (extract_title_from_yaml yaml) ".notebook" = false
    /\ contains (extract_title_from_yaml yaml) "{{" = false
    /\ needs_migration (extract_title_from_yaml yaml) (get_first_line_title body) = true.
Proof.
  split.
  - destruct (parse_note_file f) as [[[yaml body] full]|] eqn:Hp.
    + destruct (analyze_note_parsed name f yaml body full Hp) as [_ Hr].
      cbv zeta in Hr. rewrite Hr.
      destruct (startswith _ ".notebook") eqn:E1; [discriminate|].
      destruct (contains _ "{{") eqn:E2; [discriminate|].
      destruct (needs_migration _ _) eqn:E3; [|discriminate].
      intros [= <-]. exists yaml, body, full. repeat split; assumption.
    + unfold analyze_note. rewrite Hp. discriminate.
  - intros (yaml & body & full & Hp & -> & E1 & E2 & E3).
    destruct (analyze_note_parsed name f yaml body full Hp) as [_ Hr].
    cbv zeta in Hr. rewrite Hr, E1, E2, E3. reflexivity.
Qed.

Lemma analyze_loop_elem (note_files : list (string * file)) (p : pending) :
  p ∈ (analyze_loop note_files).2 <->
  exists (name : string) (f : file),
    (name, f) ∈ note_files /\ (analyze_note name f).2 = Some p.
Proof.
  induction note_files as [|[name f] rest IH].
  - split; [intros H; inversion H | intros (n & f & H & _); inversion H].
  - cbn [analyze_loop].
    destruct (analyze_note name f) as [[out c] rec] eqn:E.
    destruct (analyze_loop rest) as [out' pend]. cbn [snd] in *.
    rewrite elem_of_app, IH. split.
    + intros [Hh | (n & g & Hin & Hn)].
      * exists name, f. split; [apply elem_of_cons; left; reflexivity|].
        rewrite E. cbn [snd]. destruct rec as [q|]; simpl in Hh.
        -- apply list_elem_of_singleton in Hh. congruence.
        -- inversion Hh.
      * exists n, g. split; [apply elem_of_cons; right; exact Hin | exact Hn].
    + intros (n & g & Hin & Hn). apply elem_of_cons in Hin.
      destruct Hin as [[= -> ->] | Hin].
      * left. rewrite E in Hn. cbn [snd] in Hn. subst rec.
        simpl. apply list_elem_of_singleton. reflexivity.
      * right. exists n, g. split; assumption.
Qed.

Lemma glob_md_elem (d : gmap string file) (name : string) (f : file) :
  (name, f) ∈ glob_md d <-> endswith name ".md" = true /\ d !! name = Some f.
Proof.
  unfold glob_md. rewrite list_elem_of_filter, elem_of_map_to_list. cbn [fst].
  rewrite Is_true_true. reflexivity.
Qed.

Lemma pending_of_elem (d : gmap string file) (p : pending) :
  p ∈ pending_of d <->
  exists f : file,
    endswith (p_file p) ".md" = true
    /\ d !! p_file p = Some f
    /\ (analyze_note (p_file p) f).2 = Some p.
Proof.
  unfold pending_of. rewrite analyze_loop_elem. split.
  - intros (name & f & Hin & Hn).
    pose proof (analyze_note_record name f p Hn) as Hname. subst name.
    apply glob_md_elem in Hin. exists f. tauto.
  - intros (f & He & Hl & Hn). exists (p_file p), f.
    split; [apply glob_md_elem; tauto | exact Hn].
Qed.

(** Every run that gets past the backup returns 0 and leaves
    [final_notes]. *)
Lemma main_returns (home now response : string) (w : world) (d : gmap string file) :
  w_notes w = Some d ->
  w_siblings w !! backup_name now = None ->
  exists out : list string,
    main home now response w
    = (Returned 0,
       World (Some (final_notes home response d))
             (<[backup_name now := d]> (w_siblings w)),
       out).
Proof.
  intros Hn Hb. unfold final_notes.
  destruct (pending_of d) as [|p ps] eqn:Hp.
  - unfold main. rewrite Hn, Hb. cbv zeta. unfold pending_of in Hp.
    destruct (glob_md d) as [|e files]; [eexists; reflexivity|].
    destruct (analyze_loop (e :: files)) as [outa pend]. cbn [snd] in Hp.
    subst pend. eexists; reflexivity.
  - destruct (main_at_prompt home now response w d Hn Hb) as [out Hm].
    { rewrite Hp. discriminate. }
    rewrite Hm, Hp. destruct (String.eqb (lower response) "y"); eexists; reflexivity.
Qed.

End Runs.

Section Flagging.

Lemma needs_migration_plain (stored_title first_line : string) :
  contains stored_title "{{" = false ->
  needs_migration stored_title first_line = true
  <-> stored_title <> "" /\ first_line <> stored_title.
Proof.
  intros Hc. unfold needs_migration. rewrite Hc.
  destruct stored_title as [|c t].
  - split; [discriminate | intros [H _]; congruence].
  - rewrite negb_true_iff, String.eqb_neq. split; [intros H; split; [discriminate | exact H] | tauto].
Qed.

Lemma main_final_notes (home now response : string) (w : world) (d : gmap string file) :
  w_notes w = Some d ->
  w_notes (main home now response w).1.2 = Some d
  \/ w_notes (main home now response w).1.2
     = Some (migrate_loop (pending_of d) d).2.
Proof.
  intros Hn. destruct (w_siblings w !! backup_name now) as [b|] eqn:Hb.
  - left. unfold main. rewrite Hn, Hb. exact Hn.
  - destruct (main_returns home now response w d Hn Hb) as [out ->].
    cbn [fst snd w_notes]. unfold final_notes.
    destruct (pending_of d); [left; reflexivity|].
    destruct (String.eqb (lower response) "y"); [right | left]; reflexivity.
Qed.

End Flagging.

(** X2: a file of the notes directory that the analysis does not flag,
    because its name does not end in [.md] or because the analysis of it
    adds no record (it does not parse, its title is empty, a marker or a
    template, or its first line is the title already), is the same after
    the run, whatever is answered at the prompt. *)
Theorem unflagged_file_is_untouched
    (home now response : string) (w : world) (d : gmap string file)
    (name : string) (f : file) :
  w_notes w = Some d ->
  d !! name = Some f ->
  endswith name ".md" = false \/ (analyze_note name f).2 = None ->
  exists d' : gmap string file,
    w_notes (main home now response w).1.2 = Some d' /\ d' !! name = Some f.
Proof.
  intros Hn Hf Hu.
  destruct (main_final_notes home now response w d Hn) as [-> | ->];
    eexists; (split; [reflexivity|]); [exact Hf|].
  destruct (migrate_loop_spec (pending_of d) (pending_of_NoDup d) d)
    as [Hother _].
  rewrite Hother; [exact Hf|].
  intros Hin. apply list_elem_of_fmap in Hin. destruct Hin as (p & -> & Hp).
  apply pending_of_elem in Hp. destruct Hp as (g & He & Hg & Ha).
  assert (g = f) by congruence. subst g.
  destruct Hu as [Hu | Hu]; congruence.
Qed.

Lemma unflagged_file_is_untouched_witness :
  w_notes sample_world = Some sample_dir
  /\ sample_dir !! "c.txt" = Some untitled_note
  /\ endswith "c.txt" ".md" = false
  /\ exists d' : gmap string file,
       w_notes (main "/home/u" "20260101_093000" "y" sample_world).1.2 = Some d'
       /\ d' !! "c.txt" = Some untitled_note.
Proof.
  assert (H1 : w_notes sample_world = Some sample_dir) by reflexivity.
  assert (H2 : sample_dir !! "c.txt" = Some untitled_note) by (vm_compute; reflexivity).
  assert (H3 : endswith "c.txt" ".md" = false) by reflexivity.
  split; [exact H1|]. split; [exact H2|]. split; [exact H3|].
  exact (unflagged_file_is_untouched "/home/u" "20260101_093000" "y"
           sample_world sample_dir "c.txt" untitled_note H1 H2 (or_introl H3)).
Defined.

(** X3: the records of [notes_to_migrate] are exactly these: the name ends
    in [.md] and is a file of the directory that parses into the record's
    metadata and body; the record's title is the title extracted from that
    metadata; the title is not empty, does not start with [.notebook], holds
    no [{{]; and the first line of the body is not the title. *)
Theorem pending_records_exact (d : gmap string file) (p : pending) :
  p ∈ pending_of d <->
  exists (f : file) (full : string),
    endswith (p_file p) ".md" = true
    /\ d !! p_file p = Some f
    /\ parse_note_file f = Some (p_yaml p, p_body p, full)
    /\ p_title p = extract_title_from_yaml (p_yaml p)
    /\ p_title p <> ""
    /\ startswith (p_title p) ".notebook" = false
    /\ contains (p_title p) "{{" = false
    /\ get_first_line_title (p_body p) <> p_title p.
Proof.
  rewrite pending_of_elem. split.
  - intros (f & He & Hf & Ha). apply analyze_note_some in Ha.
    destruct Ha as (yaml & body & full & Hp & -> & E1 & E2 & E3).
    apply (needs_migration_plain _ _ E2) in E3. destruct E3 as [E3 E4].
    exists f, full. cbn [p_file p_title p_yaml p_body] in *.
    repeat split; assumption.
  - intros (f & full & He & Hf & Hp & Ht & Hne & E1 & E2 & Hl).
    exists f. split; [exact He|]. split; [exact Hf|].
    apply analyze_note_some. exists (p_yaml p), (p_body p), full.
    rewrite <- Ht. split; [exact Hp|]. split; [destruct p; simpl in *; congruence|].
    split; [exact E1|]. split; [exact E2|].
    apply (needs_migration_plain _ _ E2). split; assumption.
Qed.

(** X4: [notes_to_migrate] names every file at most once, and in the order
    in which the directory listing gives the files. *)
Theorem pending_in_listing_order (d : gmap string file) :
  NoDup (p_file <$> pending_of d)
  /\ (p_file <$> pending_of d) `sublist_of` (glob_md d).*1.
Proof.
  split; [apply pending_of_NoDup | apply analyze_loop_names].
Qed.

Section Counting.



Lemma last_report (home now : string) (n : nat) :
  exists x : string,
    last (report home now n) = Some x /\ x <> "Migration cancelled.".
Proof.
  unfold report. destruct (0 <? n)%nat; cbn [app last];
    eexists; (split; [reflexivity | discriminate]).
Qed.

End Counting.


(** X6: at the prompt only the answers [y] and [Y] confirm: with a
    migration list that is not empty, the run ends on the line
    "Migration cancelled." exactly when the answer is neither of the two. *)
Theorem only_y_confirms
    (home now response : string) (w : world) (d : gmap string file) :
  w_notes w = Some d ->
  w_siblings w !! backup_name now = None ->
  pending_of d <> [] ->
  last (main home now response w).2 = Some "Migration cancelled."
  <-> response <> "y" /\ response <> "Y".
Proof.
  intros Hn Hb Hp.
  destruct (main_at_prompt home now response w d Hn Hb Hp) as [out ->].
  destruct (String.eqb_spec (lower response) "y") as [Hy | Hy]; cbn [negb snd].
  - apply lower_is_y in Hy. split; [|tauto]. intros Hl. exfalso.
    destruct (last_report home now
                (migrate_loop (pending_of d) d).1.2)
      as (x & Hx & Hne).
    rewrite !last_app, Hx in Hl. congruence.
  - rewrite last_snoc. split; [|reflexivity]. intros _.
    split; intros ->; apply Hy; reflexivity.
Qed.

Lemma only_y_confirms_witness :
  w_notes sample_world = Some sample_dir
  /\ w_siblings sample_world !! backup_name "20260101_093000" = None
  /\ pending_of sample_dir <> []
  /\ (last (main "/home/u" "20260101_093000" "yes" sample_world).2
      = Some "Migration cancelled."
      <-> "yes" <> "y" /\ "yes" <> "Y").
Proof.
  assert (H1 : w_notes sample_world = Some sample_dir) by reflexivity.
  assert (H2 : w_siblings sample_world !! backup_name "20260101_093000" = None)
    by reflexivity.
  assert (H3 : pending_of sample_dir <> []) by (vm_compute; discriminate).
  split; [exact H1|]. split; [exact H2|]. split; [exact H3|].
  exact (only_y_confirms "/home/u" "20260101_093000" "yes"
           sample_world sample_dir H1 H2 H3).
Defined.

(** * Further properties of the text functions *)

Section Lines.

Lemma mem_char_append (c : ascii) (a b : string) :
  mem_char c (a +:+ b) = mem_char c a || mem_char c b.
Proof.
  induction a as [|x a IH]; [reflexivity|]. simpl. rewrite IH, orb_assoc. reflexivity.
Qed.

Lemma split_on_single (c : ascii) (l : string) :
  mem_char c l = false -> split_on c l = [l].
Proof.
  induction l as [|a l IH]; [reflexivity|]. simpl. intros H.
  apply orb_false_elim in H. destruct H as [Ha Hl].
  rewrite Ha, (IH Hl). reflexivity.
Qed.

Lemma split_on_line (c : ascii) (l rest : string) :
  mem_char c l = false -> split_on c (l +:+ String c rest) = l :: split_on c rest.
Proof.
  induction l as [|a l IH]; simpl; intros H.
  - rewrite Ascii.eqb_refl. reflexivity.
  - apply orb_false_elim in H. destruct H as [Ha Hl].
    rewrite Ha, (IH Hl). reflexivity.
Qed.

Lemma split_on_head (l tail : string) :
  mem_char LF l = false -> follows tail -> hd "" (split_on LF (l +:+ tail)) = l.
Proof.
  intros Hl [-> | [rest ->]].
  - rewrite append_nil_r, (split_on_single _ _ Hl). reflexivity.
  - change (nl +:+ rest) with (String LF rest). rewrite (split_on_line _ _ _ Hl).
    reflexivity.
Qed.

Lemma split_on_mem (c sep : ascii) (s : string) :
  mem_char c s = false -> Forall (fun l => mem_char c l = false) (split_on sep s).
Proof.
  induction s as [|a r IH]; simpl; intros H.
  - constructor; [reflexivity | constructor].
  - apply orb_false_elim in H. destruct H as [Ha Hr]. specialize (IH Hr).
    destruct (Ascii.eqb a sep).
    + constructor; [reflexivity | exact IH].
    + destruct (split_on sep r) as [|h t].
      * constructor; [simpl; rewrite Ha; reflexivity | constructor].
      * inversion IH; subst. constructor; [simpl; rewrite Ha; assumption | assumption].
Qed.

Lemma mem_char_sub_quote_tail (c : ascii) (s : string) :
  mem_char c s = false -> mem_char c (sub_quote_tail s) = false.
Proof.
  induction s as [|a r IH]; [reflexivity|]. cbn [mem_char sub_quote_tail]. intros H.
  apply orb_false_elim in H. destruct H as [Ha Hr].
  destruct (is_quote a && at_dollar r); [exact (IH Hr)|].
  cbn [mem_char]. rewrite Ha. exact (IH Hr).
Qed.

Lemma mem_char_sub_quotes (c : ascii) (s : string) :
  mem_char c s = false -> mem_char c (sub_quotes s) = false.
Proof.
  destruct s as [|a r]; [reflexivity|]. cbn [mem_char sub_quotes]. intros H.
  apply orb_false_elim in H. destruct H as [Ha Hr].
  pose proof (mem_char_sub_quote_tail c r Hr) as Ht.
  destruct (is_quote a); [exact Ht|]. cbn [mem_char]. rewrite Ha. exact Ht.
Qed.

Lemma mem_char_extract_title_loop (c : ascii) (lines : list string) :
  Forall (fun l => mem_char c l = false) lines ->
  mem_char c (extract_title_loop lines) = false.
Proof.
  induction 1 as [|l rest Hl _ IH]; [reflexivity|]. cbn [extract_title_loop].
  destruct (startswith l "title:"); [|exact IH].
  apply mem_char_sub_quotes, mem_char_strip, mem_char_drop, Hl.
Qed.

Lemma extract_title_no_lf (yaml_content : string) :
  mem_char LF (extract_title_from_yaml yaml_content) = false.
Proof. apply mem_char_extract_title_loop, split_on_no_sep. Qed.

Lemma extract_title_mem (c : ascii) (yaml_content : string) :
  mem_char c yaml_content = false ->
  mem_char c (extract_title_from_yaml yaml_content) = false.
Proof. intros H. apply mem_char_extract_title_loop, split_on_mem, H. Qed.

Lemma rstrip_append_keep (x y : string) :
  rstrip y <> "" -> rstrip (x +:+ y) = x +:+ rstrip y.
Proof.
  intros Hy. induction x as [|c x IH]; [reflexivity|].
  cbn [String.append rstrip]. rewrite IH.
  destruct (x +:+ rstrip y) eqn:E; [|reflexivity].
  destruct x; simpl in E; [contradiction | discriminate].
Qed.

Lemma strip_idem (x : string) : strip (strip x) = strip x.
Proof.
  pose proof (strip_padded "" "" x eq_refl eq_refl) as H.
  change ("" +:+ strip x +:+ "") with (strip x +:+ "") in H.
  rewrite append_nil_r in H. exact H.
Qed.

(** A text that starts and ends with characters that are not whitespace
    is its own trimming. *)
Lemma strip_fixed (c : ascii) (s : string) :
  isspace c = false -> rstrip (String c s) = String c s ->
  strip (String c s) = String c s.
Proof.
  intros Hc Hr. unfold strip, lstrip. cbn [drop_while]. rewrite Hc. exact Hr.
Qed.

End Lines.

Section FirstLines.

Lemma split_on_first (l tail : string) :
  mem_char LF l = false -> follows tail ->
  exists ls : list string, split_on LF (l +:+ tail) = l :: ls.
Proof.
  intros Hl [-> | [rest ->]].
  - rewrite append_nil_r, (split_on_single _ _ Hl). eexists; reflexivity.
  - change (nl +:+ rest) with (String LF rest). rewrite (split_on_line _ _ _ Hl).
    eexists; reflexivity.
Qed.

(** The guard on the empty body changes nothing. *)
Lemma get_first_line_title_eq (content : string) :
  get_first_line_title content = sub_heading (strip (hd "" (split_on LF content))).
Proof. destruct content; reflexivity. Qed.

Lemma mem_char_hashes (n : nat) : mem_char LF (hashes n) = false.
Proof. induction n as [|n IH]; [reflexivity | exact IH]. Qed.

Lemma rstrip_of_stripped (t : string) : strip t = t -> rstrip t = t.
Proof. intros H. rewrite <- H. apply rstrip_idem. Qed.

Lemma head_not_of_stripped (t : string) : strip t = t -> head_not isspace t = true.
Proof. intros H. rewrite <- H. apply head_not_strip. Qed.

Lemma is_quote_not_space (q : ascii) : is_quote q = true -> isspace q = false.
Proof.
  unfold is_quote. intros H. apply orb_prop in H.
  destruct H as [H | H]; apply Ascii.eqb_eq in H; subst q; reflexivity.
Qed.

Lemma is_quote_not_lf (q : ascii) : is_quote q = true -> Ascii.eqb q LF = false.
Proof.
  unfold is_quote. intros H. apply orb_prop in H.
  destruct H as [H | H]; apply Ascii.eqb_eq in H; subst q; reflexivity.
Qed.

Lemma sub_quote_tail_snoc (v : string) (q : ascii) :
  is_quote q = true -> sub_quote_tail (v +:+ String q "") = v.
Proof.
  intros Hq. induction v as [|c v IH].
  - cbn [String.append sub_quote_tail at_dollar]. rewrite Hq. reflexivity.
  - cbn [String.append sub_quote_tail]. rewrite IH.
    replace (at_dollar (v +:+ String q "")) with false.
    + rewrite andb_false_r. reflexivity.
    + destruct v as [|a [|b v]]; cbn [String.append at_dollar];
        [rewrite (is_quote_not_lf q Hq) | |]; reflexivity.
Qed.

End FirstLines.

(** X7: only the first line of the body matters for the decision: what
    follows the first line feed never changes the result, and the result
    is the same with or without the test for an empty body. *)
Theorem first_line_only (l rest : string) :
  mem_char LF l = false ->
  get_first_line_title (l +:+ nl +:+ rest) = get_first_line_title l
  /\ get_first_line_title l = sub_heading (strip l).
Proof.
  intros Hl. rewrite !get_first_line_title_eq.
  rewrite (split_on_head l (nl +:+ rest) Hl) by (right; eexists; reflexivity).
  rewrite (split_on_single _ _ Hl). split; reflexivity.
Qed.

Lemma first_line_only_witness :
  mem_char LF "# Plan" = false
  /\ get_first_line_title ("# Plan" +:+ nl +:+ "more" +:+ nl +:+ "lines")
     = get_first_line_title "# Plan"
  /\ get_first_line_title "# Plan" = sub_heading (strip "# Plan").
Proof.
  assert (H : mem_char LF "# Plan" = false) by reflexivity.
  split; [exact H|].
  exact (first_line_only "# Plan" ("more" +:+ nl +:+ "lines") H).
Defined.

Section Recognised.

Lemma plain_title_first_line (t tail : string) :
  mem_char LF t = false ->
  strip t = t ->
  follows tail ->
  head_not is_hash t = true ->
  get_first_line_title (t +:+ tail) = t.
Proof.
  intros Hlf Hs Hf Hh.
  rewrite get_first_line_title_eq, (split_on_head t tail Hlf Hf), Hs.
  destruct t as [|c t]; [reflexivity|]. cbn [sub_heading]. simpl in Hh.
  unfold is_hash in Hh. destruct (Ascii.eqb c HASH); [discriminate Hh | reflexivity].
Qed.

Lemma heading_title_first_line (t tail : string) (n : nat) (w : string) :
  mem_char LF t = false ->
  strip t = t ->
  t <> "" ->
  follows tail ->
  all_chars isspace w = true ->
  mem_char LF w = false ->
  head_not is_hash (w +:+ t) = true ->
  get_first_line_title (hashes (S n) +:+ w +:+ t +:+ tail) = t.
Proof.
  intros Hlf Hs Hne Hf Hw Hwl Hh.
  assert (Hl : mem_char LF (hashes (S n) +:+ w +:+ t) = false).
  { rewrite !mem_char_append, mem_char_hashes, Hwl, Hlf. reflexivity. }
  rewrite get_first_line_title_eq.
  replace (hashes (S n) +:+ w +:+ t +:+ tail)
    with ((hashes (S n) +:+ w +:+ t) +:+ tail) by (rewrite !append_assoc; reflexivity).
  rewrite (split_on_head _ tail Hl Hf).
  assert (Hst : strip (hashes (S n) +:+ w +:+ t) = hashes (S n) +:+ w +:+ t).
  { change (hashes (S n) +:+ w +:+ t) with (String HASH (hashes n +:+ w +:+ t)).
    apply strip_fixed; [reflexivity|].
    change (String HASH (hashes n +:+ w +:+ t)) with (hashes (S n) +:+ w +:+ t).
    rewrite <- !append_assoc. rewrite rstrip_append_keep.
    - rewrite (rstrip_of_stripped t Hs). reflexivity.
    - rewrite (rstrip_of_stripped t Hs). exact Hne. }
  rewrite Hst. apply sub_heading_hashes; [exact Hw | | exact Hh].
  apply head_not_of_stripped, Hs.
Qed.

End Recognised.

(** X8: a body that begins with its title is read as matching.  For a
    title [t] that is one line, not empty and without whitespace around
    it: a body whose first line is [t] gives [t] when [t] does not begin
    with [#]; and a body whose first line is one or more [#], any run of
    blanks, then [t], gives [t] too (when no blank follows the [#], [t]
    must not begin with [#]). *)
Theorem title_first_line_is_recognised (t tail : string) :
  mem_char LF t = false ->
  strip t = t ->
  t <> "" ->
  follows tail ->
  (head_not is_hash t = true -> get_first_line_title (t +:+ tail) = t)
  /\ (forall (n : nat) (w : string),
        all_chars isspace w = true ->
        mem_char LF w = false ->
        head_not is_hash (w +:+ t) = true ->
        get_first_line_title (hashes (S n) +:+ w +:+ t +:+ tail) = t).
Proof.
  intros Hlf Hs Hne Hf. split.
  - apply plain_title_first_line; assumption.
  - intros n w Hw Hwl Hh. apply heading_title_first_line; assumption.
Qed.

Lemma title_first_line_is_recognised_witness :
  mem_char LF "Meeting Notes" = false
  /\ strip "Meeting Notes" = "Meeting Notes"
  /\ "Meeting Notes" <> ""
  /\ follows (nl +:+ "...")
  /\ get_first_line_title ("Meeting Notes" +:+ nl +:+ "...") = "Meeting Notes"
  /\ get_first_line_title (hashes 2 +:+ " " +:+ "Meeting Notes" +:+ nl +:+ "...")
     = "Meeting Notes".
Proof.
  assert (H1 : mem_char LF "Meeting Notes" = false) by reflexivity.
  assert (H2 : strip "Meeting Notes" = "Meeting Notes") by reflexivity.
  assert (H3 : "Meeting Notes" <> "") by discriminate.
  assert (H4 : follows (nl +:+ "...")) by (right; exists "..."; reflexivity).
  split; [exact H1|]. split; [exact H2|]. split; [exact H3|]. split; [exact H4|].
  destruct (title_first_line_is_recognised "Meeting Notes" (nl +:+ "...") H1 H2 H3 H4)
    as [Ha Hb].
  split; [exact (Ha eq_refl) | exact (Hb 1%nat " " eq_refl eq_refl eq_refl)].
Defined.

(** X9: the body the writer builds begins with exactly one heading line:
    for the title extracted from any metadata block, the lines of the new
    body are [# title], an empty line, then the lines of the old body. *)
Theorem new_content_lines (yaml_content note_content : string) :
  split_on LF (new_content (extract_title_from_yaml yaml_content) note_content)
  = ("# " +:+ extract_title_from_yaml yaml_content) :: "" :: split_on LF note_content.
Proof.
  pose proof (extract_title_no_lf yaml_content) as Ht.
  set (t := extract_title_from_yaml yaml_content) in *. unfold new_content.
  replace ("# " +:+ t +:+ nl +:+ nl +:+ note_content)
    with (("# " +:+ t) +:+ String LF ("" +:+ String LF note_content))
    by (rewrite append_assoc; reflexivity).
  rewrite split_on_line by exact Ht.
  rewrite split_on_line by reflexivity. reflexivity.
Qed.

(** X10: a title written between two quote characters is read back as it
    stands between them, blanks at its ends and quotes inside it included,
    whatever lines follow. *)
Theorem quoted_title_is_read_back (q : ascii) (v tail : string) :
  is_quote q = true ->
  mem_char LF v = false ->
  follows tail ->
  extract_title_from_yaml ("title: " +:+ String q (v +:+ String q "") +:+ tail) = v.
Proof.
  intros Hq Hv Hf.
  pose proof (is_quote_not_space q Hq) as Hsp.
  pose proof (is_quote_not_lf q Hq) as Hlf.
  set (l := "title: " +:+ String q (v +:+ String q "")).
  assert (Hl : mem_char LF l = false).
  { unfold l. rewrite mem_char_append. cbn [mem_char].
    rewrite mem_char_append. cbn [mem_char]. rewrite Hlf, Hv. reflexivity. }
  unfold extract_title_from_yaml.
  replace ("title: " +:+ String q (v +:+ String q "") +:+ tail) with (l +:+ tail)
    by (unfold l; rewrite append_assoc; reflexivity).
  destruct (split_on_first l tail Hl Hf) as [ls ->].
  change (extract_title_loop (l :: ls))
    with (sub_quotes (strip (" " +:+ String q (v +:+ String q "")))).
  assert (Hs : strip (" " +:+ String q (v +:+ String q "")) = String q (v +:+ String q "")).
  { unfold strip. rewrite (lstrip_space_l " " _ eq_refl).
    rewrite lstrip_head_not by (cbn [head_not]; rewrite Hsp; reflexivity).
    change (String q (v +:+ String q "")) with (String q v +:+ String q "").
    rewrite rstrip_append_keep; cbn [rstrip]; rewrite Hsp; [reflexivity | discriminate]. }
  rewrite Hs. cbn [sub_quotes]. rewrite Hq. apply sub_quote_tail_snoc, Hq.
Qed.

Lemma quoted_title_is_read_back_witness :
  is_quote DQUOTE = true
  /\ mem_char LF " It's 5 " = false
  /\ follows (nl +:+ "tags: x")
  /\ extract_title_from_yaml
       ("title: " +:+ String DQUOTE (" It's 5 " +:+ String DQUOTE "") +:+ nl +:+ "tags: x")
     = " It's 5 ".
Proof.
  assert (H1 : is_quote DQUOTE = true) by reflexivity.
  assert (H2 : mem_char LF " It's 5 " = false) by reflexivity.
  assert (H3 : follows (nl +:+ "tags: x")) by (right; exists "tags: x"; reflexivity).
  split; [exact H1|]. split; [exact H2|]. split; [exact H3|].
  exact (quoted_title_is_read_back DQUOTE " It's 5 " (nl +:+ "tags: x") H1 H2 H3).
Defined.

(** * Further properties of the parser and of the written file *)

Section Reading.

Lemma universal_newlines_no_cr_upto (n : nat) (s : string) :
  (String.length s <= n)%nat -> mem_char CR (universal_newlines s) = false.
Proof.
  revert s. induction n as [|n IH]; intros s Hn.
  - destruct s; [reflexivity | simpl in Hn; lia].
  - destruct s as [|c r]; [reflexivity|]. simpl in Hn. cbn [universal_newlines].
    destruct (Ascii.eqb c CR) eqn:Ec.
    + destruct r as [|c' r']; [reflexivity|]. simpl in Hn.
      destruct (Ascii.eqb c' LF); cbn [mem_char];
        (rewrite IH; [reflexivity | simpl; lia]).
    + cbn [mem_char]. rewrite Ec. apply IH. lia.
Qed.

Lemma universal_newlines_no_cr (s : string) :
  mem_char CR (universal_newlines s) = false.
Proof. apply (universal_newlines_no_cr_upto (String.length s)). lia. Qed.

Lemma universal_newlines_id (s : string) :
  mem_char CR s = false -> universal_newlines s = s.
Proof.
  induction s as [|c r IH]; [reflexivity|]. cbn [mem_char universal_newlines].
  intros H. apply orb_false_elim in H. destruct H as [Hc Hr].
  rewrite Hc, (IH Hr). reflexivity.
Qed.

Lemma parse_note_text_inv (content m b full : string) :
  parse_note_text content = Some (m, b, full) ->
  exists pre yaml body : string,
    content = pre +:+ marker +:+ yaml +:+ marker +:+ body
    /\ occurrences marker (yaml +:+ "---") = O
    /\ m = strip yaml /\ b = strip body /\ full = content.
Proof.
  intros Hp.
  destruct (parse_note_text_cases content)
    as [[_ Hn] | (pre & yaml & body & Hc & _ & Hy & _ & Hs)]; [congruence|].
  rewrite Hs in Hp. injection Hp as <- <- <-.
  exists pre, yaml, body. repeat split; assumption.
Qed.

Lemma parse_note_text_mem (c : ascii) (content m b full : string) :
  parse_note_text content = Some (m, b, full) ->
  mem_char c content = false ->
  mem_char c m = false /\ mem_char c b = false.
Proof.
  intros Hp Hc. apply parse_note_text_inv in Hp.
  destruct Hp as (pre & yaml & body & -> & _ & -> & -> & _).
  rewrite !mem_char_append in Hc.
  apply orb_false_elim in Hc. destruct Hc as [_ Hc].
  apply orb_false_elim in Hc. destruct Hc as [_ Hc].
  apply orb_false_elim in Hc. destruct Hc as [Hy Hc].
  apply orb_false_elim in Hc. destruct Hc as [_ Hb].
  split; apply mem_char_strip; assumption.
Qed.

(** Parsing the writer's layout around any body, for a metadata block
    that is trimmed, holds no marker and does not end in [---]. *)
Lemma parse_serialize (yaml body : string) :
  occurrences marker (strip yaml) = O ->
  endswith (strip yaml) "---" = false ->
  parse_note_text (serialize (strip yaml) body)
  = Some (strip yaml, strip (nl +:+ body +:+ nl), serialize (strip yaml) body).
Proof.
  intros Hm He.
  pose proof (no_marker_before_closing _ Hm He) as Hc.
  assert (Hl : serialize (strip yaml) body
               = "" +:+ marker +:+ (strip yaml +:+ nl) +:+ marker
                 +:+ (nl +:+ body +:+ nl)).
  { unfold serialize, marker. simpl. rewrite !append_assoc. reflexivity. }
  unfold parse_note_text at 1. rewrite Hl at 1. cbn [split_max].
  rewrite (cut_marker_first "" _ eq_refl).
  rewrite (cut_marker_first (strip yaml +:+ nl) _ Hc).
  pose proof (strip_padded "" nl yaml eq_refl eq_refl) as Hy.
  change ("" +:+ strip yaml +:+ nl) with (strip yaml +:+ nl) in Hy.
  rewrite Hy. reflexivity.
Qed.

(** What trimming leaves of the new body between two line feeds. *)
Lemma strip_new_content (t body : string) :
  strip t = t -> t <> "" ->
  exists tail : string,
    follows tail
    /\ strip (nl +:+ new_content t (strip body) +:+ nl) = ("# " +:+ t) +:+ tail.
Proof.
  intros Ht Hne. unfold strip at 1.
  rewrite (lstrip_space_l nl _ eq_refl).
  rewrite lstrip_head_not by reflexivity.
  rewrite (rstrip_space_r _ nl eq_refl). unfold new_content.
  destruct (strip body) as [|c r] eqn:Eb.
  - exists "". split; [left; reflexivity|].
    replace ("# " +:+ t +:+ nl +:+ nl +:+ "") with (("# " +:+ t) +:+ (nl +:+ nl))
      by (rewrite append_assoc; reflexivity).
    rewrite (rstrip_space_r _ (nl +:+ nl) eq_refl), append_nil_r.
    rewrite rstrip_append_keep; rewrite (rstrip_of_stripped t Ht); [reflexivity | exact Hne].
  - exists (nl +:+ nl +:+ String c r). split; [right; eexists; reflexivity|].
    assert (Hr : rstrip (String c r) = String c r).
    { rewrite <- Eb. apply rstrip_idem. }
    replace ("# " +:+ t +:+ nl +:+ nl +:+ String c r)
      with (("# " +:+ t +:+ nl +:+ nl) +:+ String c r)
      by (rewrite !append_assoc; reflexivity).
    rewrite rstrip_append_keep; rewrite Hr; [|discriminate].
    rewrite !append_assoc. reflexivity.
Qed.

End Reading.

(** X11: what the parser returns is trimmed and is the text it was given:
    the metadata block and the body have no whitespace around them, the
    third result is the whole text, and no marker occurs inside the
    metadata block. *)
Theorem parse_results_trimmed (content m b full : string) :
  parse_note_text content = Some (m, b, full) ->
  strip m = m /\ strip b = b /\ full = content /\ occurrences marker m = O.
Proof.
  intros Hp. apply parse_note_text_inv in Hp.
  destruct Hp as (pre & yaml & body & _ & Hy & -> & -> & ->).
  split; [apply strip_idem|]. split; [apply strip_idem|]. split; [reflexivity|].
  apply occurrences_strip. exact (occurrences_append_r _ _ _ Hy).
Qed.

Lemma parse_results_trimmed_witness :
  parse_note_text loose_dashes_note = Some ("a---", "b", loose_dashes_note)
  /\ strip "a---" = "a---" /\ strip "b" = "b"
  /\ loose_dashes_note = loose_dashes_note
  /\ occurrences marker "a---" = O.
Proof.
  assert (H : parse_note_text loose_dashes_note = Some ("a---", "b", loose_dashes_note))
    by reflexivity.
  split; [exact H|].
  exact (parse_results_trimmed loose_dashes_note "a---" "b" loose_dashes_note H).
Defined.

(** X12: nothing read from a file carries a carriage return: the text
    handed to the parser has none, whatever the line ends of the file are,
    and so neither have the metadata block, the body, nor the title
    extracted from the metadata. *)
Theorem parsed_file_has_no_cr (f : file) (m b full : string) :
  parse_note_file f = Some (m, b, full) ->
  mem_char CR full = false
  /\ mem_char CR m = false
  /\ mem_char CR b = false
  /\ mem_char CR (extract_title_from_yaml m) = false.
Proof.
  unfold parse_note_file, read_text. intros Hp.
  pose proof (universal_newlines_no_cr (f_text f)) as Hc.
  destruct (parse_note_text_mem CR _ _ _ _ Hp Hc) as [Hm Hb].
  apply parse_note_text_inv in Hp. destruct Hp as (_ & _ & _ & _ & _ & _ & _ & ->).
  split; [exact Hc|]. split; [exact Hm|]. split; [exact Hb|].
  apply extract_title_mem, Hm.
Qed.

Lemma parsed_file_has_no_cr_witness :
  parse_note_file crlf_note = Some ("title: Plan", "Draft", read_text crlf_note)
  /\ mem_char CR (read_text crlf_note) = false
  /\ mem_char CR "title: Plan" = false
  /\ mem_char CR "Draft" = false
  /\ mem_char CR (extract_title_from_yaml "title: Plan") = false.
Proof.
  assert (H : parse_note_file crlf_note
              = Some ("title: Plan", "Draft", read_text crlf_note)) by reflexivity.
  split; [exact H|].
  exact (parsed_file_has_no_cr crlf_note _ _ _ H).
Defined.

(** X13: a migrated file loses nothing: for a note the parser accepts,
    with a metadata block that does not end in [---] and a body that is
    not empty, parsing the text the writer builds gives the same metadata
    block and, as body, the heading followed by the old body; this holds
    for any title. *)
Theorem reparse_migrated (content m b full t : string) :
  parse_note_text content = Some (m, b, full) ->
  endswith m "---" = false ->
  b <> "" ->
  parse_note_text (full_content t m b)
  = Some (m, new_content t b, full_content t m b).
Proof.
  intros Hp He Hb. pose proof Hp as Hi. apply parse_note_text_inv in Hi.
  destruct Hi as (pre & yaml & body & _ & Hy & -> & -> & _).
  assert (Hm : occurrences marker (strip yaml) = O).
  { apply occurrences_strip. exact (occurrences_append_r _ _ _ Hy). }
  rewrite full_content_serialize, (parse_serialize yaml _ Hm He).
  do 2 f_equal. f_equal. unfold strip at 1.
  rewrite (lstrip_space_l nl _ eq_refl).
  rewrite lstrip_head_not by reflexivity.
  rewrite (rstrip_space_r _ nl eq_refl). unfold new_content.
  replace ("# " +:+ t +:+ nl +:+ nl +:+ strip body)
    with (("# " +:+ t +:+ nl +:+ nl) +:+ strip body)
    by (rewrite !append_assoc; reflexivity).
  assert (Hr : rstrip (strip body) = strip body) by apply rstrip_idem.
  rewrite rstrip_append_keep; rewrite Hr; [reflexivity | exact Hb].
Qed.

Lemma reparse_migrated_witness :
  parse_note_text (f_text grocery_note)
  = Some (p_yaml grocery_pending, p_body grocery_pending, f_text grocery_note)
  /\ endswith (p_yaml grocery_pending) "---" = false
  /\ p_body grocery_pending <> ""
  /\ parse_note_text (f_text (migrated_file grocery_pending))
     = Some (p_yaml grocery_pending,
             new_content "Grocery List" (p_body grocery_pending),
             f_text (migrated_file grocery_pending)).
Proof.
  assert (H1 : parse_note_text (f_text grocery_note)
               = Some (p_yaml grocery_pending, p_body grocery_pending,
                       f_text grocery_note)) by reflexivity.
  assert (H2 : endswith (p_yaml grocery_pending) "---" = false) by reflexivity.
  assert (H3 : p_body grocery_pending <> "") by discriminate.
  split; [exact H1|]. split; [exact H2|]. split; [exact H3|].
  exact (reparse_migrated _ _ _ _ "Grocery List" H1 H2 H3).
Defined.

Section Settling.

Lemma migrated_file_unflagged (name : string) (f : file) (p : pending) :
  (analyze_note name f).2 = Some p ->
  endswith (p_yaml p) "---" = false ->
  strip (p_title p) = p_title p ->
  (analyze_note name (migrated_file p)).1.2 = OK
  /\ (analyze_note name (migrated_file p)).2 = None.
Proof.
  intros Ha He Hs. apply analyze_note_some in Ha.
  destruct Ha as (yaml & body & full & Hp & -> & E1 & E2 & E3).
  cbn [p_title p_yaml p_body] in *. unfold migrated_file. cbn [p_title p_yaml p_body].
  set (t := extract_title_from_yaml yaml) in *.
  apply (needs_migration_plain _ _ E2) in E3. destruct E3 as [Hne _].
  unfold parse_note_file, read_text in Hp.
  pose proof (universal_newlines_no_cr (f_text f)) as Hc.
  destruct (parse_note_text_mem CR _ _ _ _ Hp Hc) as [Hm Hb].
  pose proof (extract_title_mem CR yaml Hm) as Ht. fold t in Ht.
  apply parse_note_text_inv in Hp.
  destruct Hp as (pre & y0 & b0 & _ & Hy & -> & -> & _).
  assert (Ho : occurrences marker (strip y0) = O).
  { apply occurrences_strip. exact (occurrences_append_r _ _ _ Hy). }
  assert (Hfc : mem_char CR (full_content t (strip y0) (strip b0)) = false).
  { unfold full_content, new_content. rewrite !mem_char_append, Hm, Hb, Ht. reflexivity. }
  destruct (strip_new_content t b0 Hs Hne) as (tail & Hf & Hst).
  assert (Hparse :
    parse_note_file (File (full_content t (strip y0) (strip b0)) Succeeds)
    = Some (strip y0, ("# " +:+ t) +:+ tail, full_content t (strip y0) (strip b0))).
  { unfold parse_note_file, read_text. cbn [f_text].
    rewrite (universal_newlines_id _ Hfc), full_content_serialize.
    rewrite (parse_serialize y0 _ Ho He), Hst. reflexivity. }
  assert (Hfirst : get_first_line_title (("# " +:+ t) +:+ tail) = t).
  { rewrite append_assoc.
    change ("# " +:+ t +:+ tail) with (hashes 1 +:+ " " +:+ t +:+ tail).
    apply heading_title_first_line; try assumption; try reflexivity.
    apply extract_title_no_lf. }
  destruct (analyze_note_parsed name _ _ _ _ Hparse) as [Hc1 Hc2].
  cbv zeta in Hc1, Hc2. fold t in Hc1, Hc2. rewrite Hfirst, E1, E2 in Hc1, Hc2.
  destruct (needs_migration t t) eqn:En.
  - apply (needs_migration_plain _ _ E2) in En. destruct En as [_ En]. congruence.
  - split; assumption.
Qed.

End Settling.

(** X14: the migration settles a note: for a record the analysis made of
    a file, when its metadata block does not end in [---] and its title
    has no whitespace around it, the file the writer leaves is classified
    OK by the same analysis and gives no record, so that a second run
    leaves it alone. *)
Theorem migrated_note_is_ok (name : string) (f : file) (p : pending) :
  (analyze_note name f).2 = Some p ->
  endswith (p_yaml p) "---" = false ->
  strip (p_title p) = p_title p ->
  (analyze_note name (migrated_file p)).1.2 = OK
  /\ (analyze_note name (migrated_file p)).2 = None.
Proof. apply migrated_file_unflagged. Qed.

Lemma migrated_note_is_ok_witness :
  (analyze_note "a.md" grocery_note).2 = Some grocery_pending
  /\ endswith (p_yaml grocery_pending) "---" = false
  /\ strip (p_title grocery_pending) = p_title grocery_pending
  /\ (analyze_note "a.md" (migrated_file grocery_pending)).1.2 = OK
  /\ (analyze_note "a.md" (migrated_file grocery_pending)).2 = None.
Proof.
  assert (H1 : (analyze_note "a.md" grocery_note).2 = Some grocery_pending)
    by reflexivity.
  assert (H2 : endswith (p_yaml grocery_pending) "---" = false) by reflexivity.
  assert (H3 : strip (p_title grocery_pending) = p_title grocery_pending)
    by reflexivity.
  split; [exact H1|]. split; [exact H2|]. split; [exact H3|].
  exact (migrated_note_is_ok "a.md" grocery_note grocery_pending H1 H2 H3).
Defined.

(** X15: a confirmed run leaves nothing to migrate: when every flagged
    file can be written, no flagged metadata block ends in [---] and no
    flagged title has whitespace around it, the analysis of the notes
    directory after the run flags no file. *)
Theorem confirmed_run_settles
    (home now response : string) (w : world) (d : gmap string file) :
  w_notes w = Some d ->
  w_siblings w !! backup_name now = None ->
  lower response = "y" ->
  (forall p : pending,
      p ∈ pending_of d ->
      writable_at d (p_file p) = true
      /\ endswith (p_yaml p) "---" = false
      /\ strip (p_title p) = p_title p) ->
  exists d' : gmap string file,
    w_notes (main home now response w).1.2 = Some d' /\ pending_of d' = [].
Proof.
  intros Hn Hb Hr Hall.
  destruct (main_returns home now response w d Hn Hb) as [out ->].
  cbn [fst snd w_notes]. eexists. split; [reflexivity|].
  unfold final_notes. destruct (pending_of d) as [|p0 ps] eqn:Hp0; [exact Hp0|].
  rewrite Hr. cbn [String.eqb Ascii.eqb Bool.eqb]. rewrite <- Hp0 in *. clear Hp0 p0 ps.
  destruct (migrate_loop_spec (pending_of d) (pending_of_NoDup d) d)
    as [Hother Hdone].
  set (d' := (migrate_loop (pending_of d) d).2) in *.
  destruct (pending_of d') as [|q qs] eqn:Hq; [reflexivity|]. exfalso.
  assert (Hin : q ∈ pending_of d') by (rewrite Hq; apply elem_of_cons; left; reflexivity).
  apply pending_of_elem in Hin. destruct Hin as (g & Hmd & Hg & Hag).
  destruct (decide (p_file q ∈ p_file <$> pending_of d)) as [Hflag | Hflag].
  - apply list_elem_of_fmap in Hflag. destruct Hflag as (p & Hname & Hp).
    destruct (Hall p Hp) as (Hw & He & Hs).
    specialize (Hdone p Hp). unfold processed in Hdone.
    pose proof Hp as Hp'. apply pending_of_elem in Hp'.
    destruct Hp' as (f & _ & Hf & Haf).
    unfold writable_at in Hw. rewrite Hf in Hw, Hdone. unfold f_writable in Hw.
    destruct (f_write f) as [|e remains]; [|discriminate Hw].
    destruct Hdone as [Hd' _]. rewrite <- Hname in Hd'. rewrite Hd' in Hg.
    injection Hg as <-.
    destruct (migrated_file_unflagged (p_file p) f p Haf He Hs) as [_ Hnone].
    unfold migrated_file in Hnone. rewrite <- Hname in Hnone. congruence.
  - rewrite (Hother _ Hflag) in Hg. apply Hflag.
    apply list_elem_of_fmap_2. apply pending_of_elem. exists g. tauto.
Qed.

Lemma confirmed_run_settles_witness :
  w_notes (World (Some writable_dir) ∅) = Some writable_dir
  /\ w_siblings (World (Some writable_dir) ∅) !! backup_name "20260101_093000" = None
  /\ lower "y" = "y"
  /\ pending_of writable_dir = [grocery_pending]
  /\ exists d' : gmap string file,
       w_notes (main "/home/u" "20260101_093000" "y" (World (Some writable_dir) ∅)).1.2
       = Some d'
       /\ pending_of d' = [].
Proof.
  assert (H1 : w_notes (World (Some writable_dir) ∅) = Some writable_dir) by reflexivity.
  assert (H2 : w_siblings (World (Some writable_dir) ∅) !! backup_name "20260101_093000"
               = None) by reflexivity.
  assert (H3 : lower "y" = "y") by reflexivity.
  assert (H4 : pending_of writable_dir = [grocery_pending]) by (vm_compute; reflexivity).
  split; [exact H1|]. split; [exact H2|]. split; [exact H3|]. split; [exact H4|].
  apply (confirmed_run_settles "/home/u" "20260101_093000" "y"
           (World (Some writable_dir) ∅) writable_dir H1 H2 H3).
  intros p Hp. rewrite H4 in Hp. apply list_elem_of_singleton in Hp. subst p.
  split; [vm_compute; reflexivity|]. split; reflexivity.
Defined.
